(** * response_fytter.hierarchical_bayes.backends

    A shallow embedding of [backends.py]: the subject-index normalizer
    ([HierarchicalModel._get_subj_idx]), the constructor and the sampling
    entry points of the Stan and PyMC3 adapters, and the trace accessors of
    the Stan adapter, together with the properties the specification states
    about them.

    Conventions.
    - A numpy array is its shape and its row-major (C order) data.
    - Subject identifiers are integer labels ([Z]); the normalizer on
      float64 labels, where NaN is unequal to itself, is modelled apart in
      [float64].  Coefficient values are never computed on by this code,
      so they are an arbitrary type [V].
    - Python exceptions are values of [pyerror]; a call returns [result].
    - The external sampling engines are parameters of the adapters; every
      call made to them is appended to a log kept next to the object. *)

From Stdlib Require Import ZArith String DecimalString PrimFloat.
From stdpp Require Import base list sorting numbers gmap.

(** ** Python exceptions and results *)

Inductive pyerror : Type :=
  | Exception (msg : string)      (* raise Exception(msg) *)
  | IndexError                    (* tuple index out of range *)
  | TypeError                     (* len() of unsized object *)
  | ValueError                    (* pandas: shape of passed values *)
  | BackendError (diag : string). (* raised inside the sampling engine *)

Inductive result (A : Type) : Type :=
  | Ok (a : A)
  | Raise (e : pyerror).
Arguments Ok {A} a.
Arguments Raise {A} e.

(** The three messages of [backends.py].  Adjacent string literals are
    concatenated by Python as they stand, without a separating blank. *)
Definition msg_subjects : string :=
  "Number of subjects indices shouldcorrespond to number of rows in thedesign matrices.".
Definition msg_signal : string :=
  "Signal should have same number of elementsas rows in the design matrix.".
Definition msg_not_sampled : string :=
  "Model has not been sampled yet!".

(** The names the specification gives to these failures. *)
Definition InputShapeError : pyerror := Exception msg_subjects.
Definition SignalShapeError : pyerror := Exception msg_signal.
Definition NotSampledError : pyerror := Exception msg_not_sampled.

(** ** numpy *)

Module np.

Record ndarray (A : Type) : Type := NDArray {
  shape : list nat;
  data : list A
}.
Arguments NDArray {A} shape data.
Arguments shape {A} n.
Arguments data {A} n.

(** The product of the dimensions in [dims]: the number of cells of an
    array of that shape. *)
Definition prod (dims : list nat) : nat := foldr Nat.mul 1 dims.

(** The invariant of every numpy array. *)
Definition wf {A} (a : ndarray A) : Prop :=
  length (data a) = prod (shape a).

(** [np.array(l)] for a flat Python sequence [l]. *)
Definition array {A} (l : list A) : ndarray A := NDArray [length l] l.

(** [a.squeeze()]: every axis of length one is removed. *)
Definition squeeze {A} (a : ndarray A) : ndarray A :=
  NDArray (filter (λ d, d ≠ 1) (shape a)) (data a).

(** [a.shape[0]]: indexing the empty tuple raises. *)
Definition shape0 {A} (a : ndarray A) : result nat :=
  match shape a with
  | [] => Raise IndexError
  | d :: _ => Ok d
  end.

(** [len(a)]: a 0-dimensional array is unsized. *)
Definition len {A} (a : ndarray A) : result nat :=
  match shape a with
  | [] => Raise TypeError
  | d :: _ => Ok d
  end.

(** [a.shape[1:]] *)
Definition shape_tail {A} (a : ndarray A) : list nat := tail (shape a).

(** [a.reshape(dims)] keeps the data; the sizes have to agree. *)
Definition reshape {A} (a : ndarray A) (dims : list nat) : result (ndarray A) :=
  if decide (prod dims = prod (shape a)) then Ok (NDArray dims (data a))
  else Raise ValueError.

(** What [np.prod] returns for a tuple of dimensions: an integer, except
    for the empty tuple, whose product is the float [1.0]. *)
Inductive scalar : Type :=
  | Int (n : nat)
  | Float1.

Definition prod_tuple (dims : list nat) : scalar :=
  match dims with
  | [] => Float1
  | _ :: _ => Int (prod dims)
  end.

(** [a.reshape((d, k))]: a float in the new shape is a [TypeError]. *)
Definition reshape2 {A} (a : ndarray A) (d : nat) (k : scalar)
  : result (ndarray A) :=
  match k with
  | Int k => reshape a [d; k]
  | Float1 => Raise TypeError
  end.

(** [np.sort] on integer labels. *)
Definition sort (l : list Z) : list Z := merge_sort Z.le l.

(** The mask of [np.unique]: after sorting, an element is kept when it
    differs from its predecessor; the first one is always kept. *)
Fixpoint mask_changes (prev : Z) (l : list Z) : list Z :=
  match l with
  | [] => []
  | x :: t =>
      if decide (x = prev) then mask_changes x t
      else x :: mask_changes x t
  end.

(** [np.unique(a)]: flattens, sorts, and keeps the first of each run. *)
Definition unique (a : ndarray Z) : list Z :=
  match sort (data a) with
  | [] => []
  | x :: t => x :: mask_changes x t
  end.

(** The loop of [np.searchsorted(a, key)] (side='left'):
    [while lo < hi: mid = lo + (hi - lo) // 2;
       if a[mid] < key: lo = mid + 1 else: hi = mid]. *)
Fixpoint bisect_left (fuel : nat) (a : list Z) (key : Z) (lo hi : nat) : nat :=
  match fuel with
  | 0 => lo
  | S fuel' =>
      if decide (lo < hi) then
        let mid := lo + (hi - lo) / 2 in
        match a !! mid with
        | Some x =>
            if decide (x < key)%Z then bisect_left fuel' a key (mid + 1) hi
            else bisect_left fuel' a key lo mid
        | None => lo
        end
      else lo
  end.

Definition searchsorted1 (a : list Z) (key : Z) : nat :=
  bisect_left (length a) a key 0 (length a).

(** [np.searchsorted(a, v)] for an array [v] of keys: same shape as [v]. *)
Definition searchsorted (a : list Z) (v : ndarray Z) : ndarray nat :=
  NDArray (shape v) (searchsorted1 a <$> data v).

(** [a + 1] on an index array. *)
Definition add1 (a : ndarray nat) : ndarray nat :=
  NDArray (shape a) (S <$> data a).

End np.


(** ** pandas *)

Module pd.

(** A frame with a default row index: column labels and rows of cells. *)
Record DataFrame (L V : Type) : Type := Frame {
  columns : list L;
  values : list (list V)
}.
Arguments Frame {L V} columns values.
Arguments columns {L V} d.
Arguments values {L V} d.

(** [df.shape[0]] and [df.shape[1]] *)
Definition shape0 {L V} (df : DataFrame L V) : nat := length (values df).
Definition shape1 {L V} (df : DataFrame L V) : nat := length (columns df).

(** The rows of a row-major buffer holding [d] rows of [k] cells. *)
Definition rows_of {V} (d k : nat) (flat : list V) : list (list V) :=
  (λ i, take k (drop (i * k) flat)) <$> seq 0 d.

(** [pd.DataFrame(a, columns=cols)] for a numpy array [a]: a vector is one
    column, a matrix is taken as it is, anything else is refused; the
    number of labels has to be the number of columns. *)
Definition of_ndarray {L V} (a : np.ndarray V) (cols : list L)
  : result (DataFrame L V) :=
  match np.shape a with
  | [d] =>
      if decide (length cols = 1) then Ok (Frame cols (rows_of d 1 (np.data a)))
      else Raise ValueError
  | [d; k] =>
      if decide (length cols = k) then Ok (Frame cols (rows_of d k (np.data a)))
      else Raise ValueError
  | _ => Raise ValueError
  end.

(** [pd.MultiIndex.from_product([a, b])]: the first level varies slowest. *)
Definition from_product {A B} (a : list A) (b : list B) : list (A * B) :=
  a ≫= λ x, pair x <$> b.

(** The columns of a table of [k]-cell rows. *)
Fixpoint transpose {V} (k : nat) (rows : list (list V)) : list (list V) :=
  match rows with
  | [] => replicate k []
  | r :: rows' => zip_with cons r (transpose k rows')
  end.

(** [frame.values.ravel('F')]: the cells in column-major order. *)
Definition ravel_F {L V} (df : DataFrame L V) : list V :=
  concat (transpose (shape1 df) (values df)).

(** [pd.melt(frame)] without identifier columns: the value column is the
    column-major ravel of the cells, and every column label is repeated
    once per row of the frame.  A long row is (label, value). *)
Definition melt {L V} (df : DataFrame L V) : list (L * V) :=
  zip (columns df ≫= replicate (shape0 df)) (ravel_F df).

(** Every row has [k] cells. *)
Definition rectangular {V} (k : nat) (rows : list (list V)) : Prop :=
  Forall (λ r, length r = k) rows.

(** The value column of a long table and the cells of a wide one. *)
Definition value_column {L V} (long : list (L * V)) : list V := snd <$> long.
Definition cells {L V} (df : DataFrame L V) : list V := concat (values df).

End pd.

(** The offset of [a[i0, i1, ...]] in a row-major buffer, and the item. *)
Definition offset (dims idx : list nat) : nat :=
  foldl (λ acc di, acc * di.1 + di.2) 0 (zip dims idx).

Definition item {A} (a : np.ndarray A) (idx : list nat) : option A :=
  np.data a !! offset (np.shape a) idx.

(** ** Methods as state transformers

    A method runs on a world: the object it is called on ([self]) and the
    log of the calls made to the external engine so far.  A raised exception
    keeps whatever had been assigned before it. *)

Section method.

Context {S E : Type}.

Record world : Type := World {
  self : S;
  engine_log : list E
}.

Definition M (A : Type) : Type := world → result A * world.

Definition ret {A} (a : A) : M A := λ w, (Ok a, w).

Definition bind {A B} (c : M A) (k : A → M B) : M B :=
  λ w, match c w with
       | (Ok a, w') => k a w'
       | (Raise e, w') => (Raise e, w')
       end.

Definition raise {A} (e : pyerror) : M A := λ w, (Raise e, w).

(** A computation that only reads its arguments. *)
Definition lift {A} (r : result A) : M A := λ w, (r, w).

Definition get_self : M S := λ w, (Ok (self w), w).

Definition set_self (s : S) : M unit :=
  λ w, (Ok tt, World s (engine_log w)).

(** A call to the external engine: it is logged, then answers or raises. *)
Definition call_engine {A} (engine : E → result A) (c : E) : M A :=
  λ w, (engine c, World (self w) (engine_log w ++ [c])).

End method.

Arguments world : clear implicits.
Arguments M : clear implicits.

Declare Scope method_scope.
Delimit Scope method_scope with method.
Notation "x <- c ;; k" := (bind c (λ x, k))
  (at level 100, c at next level, right associativity) : method_scope.
Notation "c ;;; k" := (bind c (λ _, k))
  (at level 100, right associativity) : method_scope.

(** ** The classes of [backends.py] *)

Section backends.

(** Column names of the design matrix, real values, the keyword options
    passed through to an engine, and the trace object PyMC3 returns. *)
Context {C V Opts MultiTrace : Type}.

Local Open Scope method_scope.

(** *** [class HierarchicalModel] *)

Record HierarchicalModel : Type := Model {
  X : pd.DataFrame C V;
  subject_ids : np.ndarray Z;
  unique_subject_ids : list Z;
  n_subjects : nat;
  subj_idx : np.ndarray nat
}.

(** [_get_subj_idx]: the normalizer; it assigns the last three attributes. *)
Definition _get_subj_idx (X : pd.DataFrame C V) (subject_ids : np.ndarray Z)
  : HierarchicalModel :=
  let unique_subject_ids := np.sort (np.unique subject_ids) in
  {| X := X;
     subject_ids := subject_ids;
     unique_subject_ids := unique_subject_ids;
     n_subjects := length unique_subject_ids;
     subj_idx := np.searchsorted unique_subject_ids subject_ids |}.

(** [HierarchicalModel.__init__(X, subject_ids)], where [subject_ids] is
    what [np.array] made of the argument. *)
Definition HierarchicalModel_init (X : pd.DataFrame C V)
    (subject_ids : np.ndarray Z) : result HierarchicalModel :=
  let subject_ids := np.squeeze subject_ids in
  match np.shape0 subject_ids with
  | Raise e => Raise e
  | Ok n0 =>
      if decide (n0 ≠ pd.shape0 X) then Raise (Exception msg_subjects)
      else Ok (_get_subj_idx X subject_ids)
  end.

(** [HierarchicalModel.sample(signal, chains)]: only the length check. *)
Definition HierarchicalModel_sample (self : HierarchicalModel)
    (signal : np.ndarray V) (chains : nat) : result unit :=
  let measure := np.squeeze signal in
  match np.len measure with
  | Raise e => Raise e
  | Ok l =>
      if decide (l ≠ pd.shape0 (X self)) then Raise (Exception msg_signal)
      else Ok tt
  end.

(** *** [class HierarchicalStanModel] *)

(** The [data] dictionary handed to Stan. *)
Record StanData : Type := {
  data_measure : np.ndarray V;
  data_subj_idx : np.ndarray nat;
  data_n : nat;
  data_j : nat;
  data_m : nat;
  data_X : list (list V)
}.

(** One call of [self.model.sampling]. *)
Record StanCall : Type := {
  call_data : StanData;
  call_chains : nat;
  call_iter : nat;
  call_kwargs : Opts
}.

(** What the accessors read from the fit Stan returns. *)
Record StanFit : Type := {
  beta_subject : np.ndarray V;
  beta_group : np.ndarray V
}.

(** The object: the inherited attributes and [results], which exists only
    once it has been assigned.  The compiled Stan program ([self.model],
    cached on disk by the constructor) is the engine parameter below. *)
Record HierarchicalStanModel : Type := StanModel {
  stan_base : HierarchicalModel;
  stan_results : option StanFit
}.

Definition HierarchicalStanModel_init (X : pd.DataFrame C V)
    (subject_ids : np.ndarray Z) : result HierarchicalStanModel :=
  match HierarchicalModel_init X subject_ids with
  | Raise e => Raise e
  | Ok base => Ok (StanModel base None)
  end.

(** A table returned by an accessor: wide, or melted. *)
Inductive Traces (L : Type) : Type :=
  | Wide (df : pd.DataFrame L V)
  | Long (rows : list (L * V)).
Arguments Wide {L} df.
Arguments Long {L} rows.

(** The dictionary [sample] builds: the index is shifted to Stan's 1-based
    convention. *)
Definition stan_data (self : HierarchicalStanModel) (signal : np.ndarray V)
  : StanData :=
  {| data_measure := signal;
     data_subj_idx := np.add1 (subj_idx (stan_base self));
     data_n := pd.shape0 (X (stan_base self));
     data_j := n_subjects (stan_base self);
     data_m := pd.shape1 (X (stan_base self));
     data_X := pd.values (X (stan_base self)) |}.

Section stan.

(** [self.model.sampling(data=..., chains=..., iter=..., **kwargs)] *)
Variable sampling : StanCall → result StanFit.

Definition HierarchicalStanModel_sample (signal : np.ndarray V)
    (chains iter : nat) (kwargs : Opts)
  : M HierarchicalStanModel StanCall unit :=
  self <- get_self ;;
  lift (HierarchicalModel_sample (stan_base self) signal chains) ;;;
  let data := stan_data self signal in
  results <- call_engine sampling
               {| call_data := data; call_chains := chains;
                  call_iter := iter; call_kwargs := kwargs |} ;;
  set_self (StanModel (stan_base self) (Some results)).

End stan.

Definition get_subject_traces (melt : bool)
  : M HierarchicalStanModel StanCall (Traces (Z * C)) :=
  self <- get_self ;;
  match stan_results self with
  | None => raise (Exception msg_not_sampled)
  | Some results =>
      let bs := beta_subject results in
      draws <- lift (np.shape0 bs) ;;
      traces <- lift (np.reshape2 bs draws
                        (np.prod_tuple (np.shape_tail bs))) ;;
      let columns :=
        pd.from_product (unique_subject_ids (stan_base self))
                        (pd.columns (X (stan_base self))) in
      traces <- lift (pd.of_ndarray traces columns) ;;
      if melt then ret (Long (pd.melt traces)) else ret (Wide traces)
  end.

Definition get_group_traces (melt : bool)
  : M HierarchicalStanModel StanCall (Traces C) :=
  self <- get_self ;;
  match stan_results self with
  | None => raise (Exception msg_not_sampled)
  | Some results =>
      traces <- lift (pd.of_ndarray (beta_group results)
                        (pd.columns (X (stan_base self)))) ;;
      if melt then ret (Long (pd.melt traces)) else ret (Wide traces)
  end.

Definition get_group_parameters : M HierarchicalStanModel StanCall unit :=
  self <- get_self ;;
  match stan_results self with
  | None => raise (Exception msg_not_sampled)
  | Some _ => ret tt
  end.

(** *** [class HierarchicalPymc3Model] *)

(** The model built inside [with pm.Model() as self.model]: the shapes of
    the three random tensors and what the likelihood is computed from. *)
Record PmModel : Type := {
  hyperpriors_mu_shape : nat * nat;
  hyperpriors_sd_shape : nat * nat;
  subjectwise_offsets_shape : nat * nat;
  dot_X : pd.DataFrame C V;
  dot_subj_idx : np.ndarray nat;
  observed_signal : np.ndarray V
}.

(** One call of [pm.sample(draws=iter, chains=chains, **kwargs)]. *)
Record PmCall : Type := {
  pm_model : PmModel;
  pm_draws : nat;
  pm_chains : nat;
  pm_kwargs : Opts
}.

Record HierarchicalPymc3Model : Type := Pymc3Model {
  pymc3_base : HierarchicalModel;
  pymc3_model : option PmModel;
  pymc3_results : option MultiTrace
}.

Definition HierarchicalPymc3Model_init (X : pd.DataFrame C V)
    (subject_ids : np.ndarray Z) : result HierarchicalPymc3Model :=
  match HierarchicalModel_init X subject_ids with
  | Raise e => Raise e
  | Ok base => Ok (Pymc3Model base None None)
  end.

(** What the body of [with pm.Model() as self.model] declares. *)
Definition pymc3_graph (base : HierarchicalModel) (signal : np.ndarray V)
  : PmModel :=
  {| hyperpriors_mu_shape := (pd.shape1 (X base), 1);
     hyperpriors_sd_shape := (pd.shape1 (X base), 1);
     subjectwise_offsets_shape := (pd.shape1 (X base), n_subjects base);
     dot_X := X base;
     dot_subj_idx := subj_idx base;
     observed_signal := signal |}.

Section pymc3.

(** The body of the [with] block up to the likelihood (lines 161-176):
    PyMC3 and Theano declare the variables and compute their test values
    as they go, so this can raise before any sampling; [signal -
    signal_est] does, for a signal that does not broadcast against the
    estimate. *)
Variable pm_declare : PmModel → result unit.

(** [pm.sample(draws=iter, chains=chains, **kwargs)] *)
Variable pm_sample : PmCall → result MultiTrace.

(** This override does not call the inherited [sample].  [self.model] is
    bound on entering the [with] block, before its body runs. *)
Definition HierarchicalPymc3Model_sample (signal : np.ndarray V)
    (chains iter : nat) (kwargs : Opts)
  : M HierarchicalPymc3Model PmCall unit :=
  self <- get_self ;;
  let base := pymc3_base self in
  let model := pymc3_graph base signal in
  set_self (Pymc3Model base (Some model) (pymc3_results self)) ;;;
  lift (pm_declare model) ;;;
  results <- call_engine pm_sample
               {| pm_model := model; pm_draws := iter;
                  pm_chains := chains; pm_kwargs := kwargs |} ;;
  set_self (Pymc3Model base (Some model) (Some results)).

End pymc3.

End backends.

Arguments HierarchicalModel : clear implicits.
Arguments StanData : clear implicits.
Arguments StanCall : clear implicits.
Arguments StanFit : clear implicits.
Arguments HierarchicalStanModel : clear implicits.
Arguments PmModel : clear implicits.
Arguments PmCall : clear implicits.
Arguments HierarchicalPymc3Model : clear implicits.
Arguments Traces : clear implicits.
Arguments Wide {V L} df.
Arguments Long {V L} rows.

(** The attribute [X], for use where a design matrix named [X] is around. *)
Abbreviation attr_X := X.

(** Unfolds a method down to the world it returns. *)
Ltac unfold_method :=
  unfold HierarchicalStanModel_sample, HierarchicalPymc3Model_sample,
    get_subject_traces, get_group_traces, get_group_parameters,
    bind, get_self, set_self, lift, raise, ret, call_engine in *;
  simpl in *.

(** ** The constructor on float64 identifiers

    The same constructor and normalizer for identifiers that numpy holds as
    float64.  Only the comparisons differ from the integer case: numpy
    sorts and searches floats with NaN after every number, [!=] and [==]
    are the IEEE comparisons, under which NaN differs from itself, and
    [np.unique] keeps one NaN when [equal_nan] is set, as numpy does from
    1.21 on, and every NaN otherwise. *)

Module float64.

Definition isnan (x : float) : bool := negb (PrimFloat.eqb x x).

(** The order of [np.sort] and [np.searchsorted] on floats. *)
Definition lt (a b : float) : bool :=
  PrimFloat.ltb a b || (isnan b && negb (isnan a)).

Definition le (a b : float) : Prop := Is_true (negb (lt b a)).

Definition sort (l : list float) : list float := merge_sort le l.

Fixpoint mask_changes (equal_nan : bool) (prev : float) (l : list float)
  : list float :=
  match l with
  | [] => []
  | x :: t =>
      if PrimFloat.eqb x prev || (equal_nan && isnan x && isnan prev)
      then mask_changes equal_nan x t
      else x :: mask_changes equal_nan x t
  end.

Definition unique (equal_nan : bool) (a : np.ndarray float) : list float :=
  match sort (np.data a) with
  | [] => []
  | x :: t => x :: mask_changes equal_nan x t
  end.

Fixpoint bisect_left (fuel : nat) (a : list float) (key : float)
    (lo hi : nat) : nat :=
  match fuel with
  | 0 => lo
  | S fuel' =>
      if decide (lo < hi) then
        let mid := lo + (hi - lo) / 2 in
        match a !! mid with
        | Some x =>
            if lt x key then bisect_left fuel' a key (mid + 1) hi
            else bisect_left fuel' a key lo mid
        | None => lo
        end
      else lo
  end.

Definition searchsorted1 (a : list float) (key : float) : nat :=
  bisect_left (length a) a key 0 (length a).

Definition searchsorted (a : list float) (v : np.ndarray float)
  : np.ndarray nat :=
  np.NDArray (np.shape v) (searchsorted1 a <$> np.data v).

Section model.

Context {C V : Type}.

Record HierarchicalModel : Type := Model {
  X : pd.DataFrame C V;
  subject_ids : np.ndarray float;
  unique_subject_ids : list float;
  n_subjects : nat;
  subj_idx : np.ndarray nat
}.

Definition _get_subj_idx (equal_nan : bool) (X : pd.DataFrame C V)
    (subject_ids : np.ndarray float) : HierarchicalModel :=
  let unique_subject_ids := sort (unique equal_nan subject_ids) in
  {| X := X;
     subject_ids := subject_ids;
     unique_subject_ids := unique_subject_ids;
     n_subjects := length unique_subject_ids;
     subj_idx := searchsorted unique_subject_ids subject_ids |}.

Definition HierarchicalModel_init (equal_nan : bool) (X : pd.DataFrame C V)
    (subject_ids : np.ndarray float) : result HierarchicalModel :=
  let subject_ids := np.squeeze subject_ids in
  match np.shape0 subject_ids with
  | Raise e => Raise e
  | Ok n0 =>
      if decide (n0 ≠ pd.shape0 X) then Raise (Exception msg_subjects)
      else Ok (_get_subj_idx equal_nan X subject_ids)
  end.


End model.

Arguments HierarchicalModel : clear implicits.

End float64.

(** ** Sequences of calls on one object *)

Section calls.

Context {C V Opts MultiTrace : Type}.

(** The exception a call ended with, if any. *)
Definition raised {A} (r : result A) : option pyerror :=
  match r with
  | Ok _ => None
  | Raise e => Some e
  end.

(** The public methods of the Stan adapter. *)
Inductive StanOp : Type :=
  | CallSample (signal : np.ndarray V) (chains iter : nat) (kwargs : Opts)
  | CallSubjectTraces (melt : bool)
  | CallGroupTraces (melt : bool)
  | CallGroupParameters.

Definition is_accessor (op : StanOp) : bool :=
  match op with
  | CallSample _ _ _ _ => false
  | _ => true
  end.

Definition stan_call (sampling : StanCall V Opts → result (StanFit V))
    (op : StanOp) (w : world (HierarchicalStanModel C V) (StanCall V Opts))
  : option pyerror * world (HierarchicalStanModel C V) (StanCall V Opts) :=
  match op with
  | CallSample signal chains iter kwargs =>
      prod_map raised id
        (HierarchicalStanModel_sample sampling signal chains iter kwargs w)
  | CallSubjectTraces melt => prod_map raised id (get_subject_traces melt w)
  | CallGroupTraces melt => prod_map raised id (get_group_traces melt w)
  | CallGroupParameters => prod_map raised id (get_group_parameters w)
  end.

Definition stan_calls (sampling : StanCall V Opts → result (StanFit V))
    (ops : list StanOp) (w : world (HierarchicalStanModel C V) (StanCall V Opts))
  : world (HierarchicalStanModel C V) (StanCall V Opts) :=
  foldl (λ w op, (stan_call sampling op w).2) w ops.

(** The PyMC3 adapter has one public method. *)
Record PmOp : Type := PmCallSample {
  op_signal : np.ndarray V;
  op_chains : nat;
  op_iter : nat;
  op_kwargs : Opts
}.

Definition pymc3_calls (pm_declare : PmModel C V → result unit)
    (pm_sample : PmCall C V Opts → result MultiTrace)
    (ops : list PmOp)
    (w : world (HierarchicalPymc3Model C V MultiTrace) (PmCall C V Opts))
  : world (HierarchicalPymc3Model C V MultiTrace) (PmCall C V Opts) :=
  foldl (λ w op,
           (HierarchicalPymc3Model_sample pm_declare pm_sample (op_signal op)
              (op_chains op) (op_iter op) (op_kwargs op) w).2) w ops.

(** The invariant of the derived index, for the identifiers a model was
    built from: [n_subjects] counts the distinct identifiers, there is one
    index per observation, and every index is a rank below [n_subjects]. *)
Definition subject_index_invariant (subject_ids : np.ndarray Z)
    (mdl : HierarchicalModel C V) : Prop :=
  n_subjects mdl = size (list_to_set (np.data subject_ids) : gset Z)
  ∧ length (np.data (subj_idx mdl)) = length (np.data subject_ids)
  ∧ ∀ i k, np.data (subj_idx mdl) !! i = Some k → 0 ≤ k < n_subjects mdl.

(** The worlds in which no sampling call has succeeded yet: the one right
    after construction, and those reached from it by accessor calls and by
    sampling calls that raised. *)
Inductive unsampled (sampling : StanCall V Opts → result (StanFit V))
  : world (HierarchicalStanModel C V) (StanCall V Opts) → Prop :=
  | unsampled_new X subject_ids mdl :
      HierarchicalStanModel_init X subject_ids = Ok mdl →
      unsampled sampling (World mdl [])
  | unsampled_failed w signal chains iter kwargs e w' :
      unsampled sampling w →
      HierarchicalStanModel_sample sampling signal chains iter kwargs w
        = (Raise e, w') →
      unsampled sampling w'
  | unsampled_accessor w op :
      unsampled sampling w →
      is_accessor op = true →
      unsampled sampling (stan_call sampling op w).2.

End calls.

Arguments StanOp : clear implicits.
Arguments PmOp : clear implicits.

(** ** The specification's wording of a failure that names two counts

    Used only to state what the specification asks of the constructor's
    error: an [Exception] whose message contains both numbers in decimal. *)

Definition decimal (n : nat) : string :=
  NilEmpty.string_of_uint (Nat.to_uint n).

Definition mentions (part msg : string) : bool :=
  match String.index 0 part msg with
  | Some _ => true
  | None => false
  end.

Definition names_counts (msg : string) (expected actual : nat) : bool :=
  mentions (decimal expected) msg && mentions (decimal actual) msg.

Definition spec_fails_naming_counts {A} (r : result A)
    (expected actual : nat) : Prop :=
  ∃ msg, r = Raise (Exception msg) ∧ names_counts msg expected actual = true.

(** ** Concrete data *)

Module example.

Local Open Scope Z_scope.

(** Five observations of two named predictors; three subjects. *)
Definition X5 : pd.DataFrame string Z :=
  pd.Frame ["a"%string; "b"%string] [[1; 2]; [3; 4]; [5; 6]; [7; 8]; [9; 10]].
Definition ids5 : np.ndarray Z := np.array [5; 1; 5; 3; 1].
Definition signal5 : np.ndarray Z := np.array [10; 20; 30; 40; 50].

(** Two and one observations. *)
Definition X2 : pd.DataFrame string Z :=
  pd.Frame ["a"%string; "b"%string] [[1; 2]; [3; 4]].
Definition X1 : pd.DataFrame string Z :=
  pd.Frame ["a"%string; "b"%string] [[1; 2]].
Definition signal3 : np.ndarray Z := np.array [10; 20; 30].

(** Two draws for three subjects and two predictors. *)
Definition fit5 : StanFit Z :=
  {| beta_subject :=
       np.NDArray [2; 3; 2]%nat [1; 2; 3; 4; 5; 6; 7; 8; 9; 10; 11; 12];
     beta_group := np.NDArray [2; 2]%nat [1; 2; 3; 4] |}.

Definition engine_ok (c : StanCall Z unit) : result (StanFit Z) := Ok fit5.
Definition engine_fails (c : StanCall Z unit) : result (StanFit Z) :=
  Raise (BackendError "divergent").

Definition new5 : world (HierarchicalStanModel string Z) (StanCall Z unit) :=
  World (StanModel (_get_subj_idx X5 ids5) None) [].

Definition sampled5 : world (HierarchicalStanModel string Z) (StanCall Z unit) :=
  (HierarchicalStanModel_sample engine_ok signal5 1 1000 tt new5).2.

(** Whether two shapes broadcast: aligned from the last axis, each pair of
    lengths is equal or has a one. *)
Fixpoint broadcasts_from_last (a b : list nat) : bool :=
  match a, b with
  | x :: a', y :: b' =>
      (bool_decide (x = y) || bool_decide (x = 1%nat)
       || bool_decide (y = 1%nat))
      && broadcasts_from_last a' b'
  | _, _ => true
  end.

Definition broadcasts (a b : list nat) : bool :=
  broadcasts_from_last (reverse a) (reverse b).

(** An engine for the declaration step with a flat index: the estimate
    [T.dot(X, subjectwise_est[:, subj_idx])] has one row per row of [X] and
    one column per index entry, and [signal - signal_est] raises unless
    the signal broadcasts against it. *)
Definition theano_declare (graph : PmModel string Z) : result unit :=
  if broadcasts (np.shape (observed_signal graph))
       [pd.shape0 (dot_X graph); length (np.data (dot_subj_idx graph))]
  then Ok tt else Raise ValueError.

(** The same object after a sampling call that the engine refused. *)
Definition failed5 : world (HierarchicalStanModel string Z) (StanCall Z unit) :=
  (HierarchicalStanModel_sample engine_fails signal5 1 1000 tt new5).2.

End example.

(** ** The Stan program, and the constructor that compiles it *)

(** [stan_code], the program text the module hands to PyStan. *)
Definition stan_code : string := "
data {
    int<lower=0> n; // number of observations
    int<lower=0> m; // number of predictors
    int<lower=0> j; // number of groups

    real measure[n];
    matrix[n, m] X;
    int<lower=0> subj_idx[n];
}

parameters {
    real<lower=0> eps;
    row_vector[m] beta_group;
    matrix[j, m] beta_subject_offset;
    row_vector<lower=0>[m] group_sd;

}
transformed parameters {

    matrix[j, m] beta_subject;

    for (i in 1:j)
        beta_subject[i, :] = beta_group + group_sd .* beta_subject_offset[i];

}

model {
    matrix[n, m] beta;

    for (i in 1:n)
        beta[i, :] = beta_subject[subj_idx[i]];

    beta_group ~ normal(0, 10);
    to_vector(beta_subject_offset) ~ normal(0, 1);
    to_vector(group_sd) ~ cauchy(0, 2.5);

    eps ~ cauchy(0, 2.5);

    measure ~ normal(rows_dot_product(X, beta), eps);
}
".

Section stan_program.

Context {V : Type}.

(** The sizes the data block declares: [real measure[n]], [matrix[n, m] X]
    and [int subj_idx[n]].  The lower bounds are all zero and hold of every
    natural number. *)
Definition stan_data_block (d : StanData V) : Prop :=
  np.shape (data_measure d) = [data_n d]
  ∧ length (np.data (data_measure d)) = data_n d
  ∧ length (data_X d) = data_n d
  ∧ pd.rectangular (data_m d) (data_X d)
  ∧ np.shape (data_subj_idx d) = [data_n d]
  ∧ length (np.data (data_subj_idx d)) = data_n d.

(** [beta_subject[k]] in Stan: rows are numbered from one, and an index
    outside [1..rows] stops the program. *)
Definition stan_index (beta_subject : list (list V)) (k : nat)
  : result (list V) :=
  match k with
  | 0 => Raise (BackendError "index out of range")
  | S k' =>
      match beta_subject !! k' with
      | Some row => Ok row
      | None => Raise (BackendError "index out of range")
      end
  end.

(** The loop of the model block:
    [for (i in 1:n) beta[i, :] = beta_subject[subj_idx[i]];]. *)
Fixpoint stan_beta (beta_subject : list (list V)) (subj_idx : list nat)
  : result (list (list V)) :=
  match subj_idx with
  | [] => Ok []
  | k :: rest =>
      match stan_index beta_subject k with
      | Raise e => Raise e
      | Ok row =>
          match stan_beta beta_subject rest with
          | Raise e => Raise e
          | Ok rows => Ok (row :: rows)
          end
      end
  end.

End stan_program.

Section stan_constructor.

(** [StanModelObject] is what [pystan.StanModel] returns. *)
Context {C V StanModelObject : Type}.

(** [pystan.StanModel(model_code=...)] *)
Variable pystan_StanModel : string → result StanModelObject.

(** What a run of the constructor leaves behind: its outcome (the object
    and its [model] attribute), the content of [stanmodel.pkl] (absent, or
    the pickle of a compiled model, which unpickles to that model), and the
    programs it had compiled. *)
Record Constructed : Type := {
  outcome : result (HierarchicalStanModel C V * StanModelObject);
  stanmodel_pkl : option StanModelObject;
  compiled : list string
}.

(** [HierarchicalStanModel.__init__(X, subject_ids, recompile)], run with
    the cache file in state [file].  The program is compiled and pickled
    when [not os.path.exists(stan_model_fn) or recompile]; otherwise the
    file is unpickled. *)
Definition HierarchicalStanModel_init_cached (X : pd.DataFrame C V)
    (subject_ids : np.ndarray Z) (recompile : bool)
    (file : option StanModelObject) : Constructed :=
  match HierarchicalModel_init X subject_ids with
  | Raise e => {| outcome := Raise e; stanmodel_pkl := file; compiled := [] |}
  | Ok base =>
      let fresh :=
        match pystan_StanModel stan_code with
        | Raise e =>
            {| outcome := Raise e; stanmodel_pkl := file;
               compiled := [stan_code] |}
        | Ok model =>
            {| outcome := Ok (StanModel base None, model);
               stanmodel_pkl := Some model; compiled := [stan_code] |}
        end in
      match file, recompile with
      | Some model, false =>
          {| outcome := Ok (StanModel base None, model);
             stanmodel_pkl := file; compiled := [] |}
      | _, _ => fresh
      end
  end.

End stan_constructor.

Arguments Constructed : clear implicits.

(** ** What a sequence of calls amounts to *)

Section summary.

Context {C V Opts : Type}.

(** The engine call a method call leads to, if any: only [sample] calls
    the engine, and only with a signal that passes the inherited check. *)
Definition engine_call_of (base : HierarchicalModel C V) (op : StanOp V Opts)
  : option (StanCall V Opts) :=
  match op with
  | CallSample signal chains iter kwargs =>
      match HierarchicalModel_sample base signal chains with
      | Ok _ =>
          Some {| call_data := stan_data (StanModel base None) signal;
                  call_chains := chains; call_iter := iter;
                  call_kwargs := kwargs |}
      | Raise _ => None
      end
  | _ => None
  end.

(** The fit the object holds after a sequence of calls: that of the last
    engine call that answered. *)
Definition last_fit (sampling : StanCall V Opts → result (StanFit V))
    (base : HierarchicalModel C V) (ops : list (StanOp V Opts))
    (results : option (StanFit V)) : option (StanFit V) :=
  foldl (λ results op,
           match engine_call_of base op with
           | Some call =>
               match sampling call with
               | Ok fit => Some fit
               | Raise _ => results
               end
           | None => results
           end) results ops.

End summary.

Section pymc3_summary.

Context {C V Opts : Type}.

(** The [pm.sample] call a [sample] call of the PyMC3 adapter leads to, if
    any: the one on the graph it declared, unless the declaration raised.
    No length check stands in between. *)
Definition pm_call_of (pm_declare : PmModel C V → result unit)
    (base : HierarchicalModel C V) (op : PmOp V Opts)
  : option (PmCall C V Opts) :=
  let model := pymc3_graph base (op_signal op) in
  match pm_declare model with
  | Ok _ =>
      Some {| pm_model := model; pm_draws := op_iter op;
              pm_chains := op_chains op; pm_kwargs := op_kwargs op |}
  | Raise _ => None
  end.

End pymc3_summary.

(** * Properties *)

(** ** Facts about the numpy model *)

Section np_facts.

Lemma StronglySorted_lookup_le (a : list Z) i j x y :
  StronglySorted Z.le a → i ≤ j →
  a !! i = Some x → a !! j = Some y → (x ≤ y)%Z.
Proof.
  intros Hs. revert i j. induction Hs as [|z a Hs IH Hall]; intros i j Hij Hi Hj.
  - rewrite lookup_nil in Hi. discriminate.
  - destruct i as [|i], j as [|j]; simpl in *.
    + simplify_eq. lia.
    + simplify_eq. rewrite Forall_forall in Hall.
      apply Hall. eapply list_elem_of_lookup_2. eassumption.
    + lia.
    + eapply IH; [|eassumption..]. lia.
Qed.

Lemma StronglySorted_lt_le (a : list Z) :
  StronglySorted Z.lt a → StronglySorted Z.le a.
Proof.
  induction 1 as [|z a Hs IH Hall]; constructor; auto.
  eapply Forall_impl; [exact Hall|]. intros; simpl in *; lia.
Qed.

Lemma StronglySorted_lt_NoDup (a : list Z) :
  StronglySorted Z.lt a → NoDup a.
Proof.
  induction 1 as [|z a Hs IH Hall]; constructor; auto.
  intros Hin. rewrite Forall_forall in Hall.
  specialize (Hall _ Hin). lia.
Qed.

Lemma bisect_left_step fuel (a : list Z) key lo hi :
  np.bisect_left (S fuel) a key lo hi =
  if decide (lo < hi) then
    match a !! (lo + (hi - lo) / 2) with
    | Some x =>
        if decide (x < key)%Z
        then np.bisect_left fuel a key (lo + (hi - lo) / 2 + 1) hi
        else np.bisect_left fuel a key lo (lo + (hi - lo) / 2)
    | None => lo
    end
  else lo.
Proof. reflexivity. Qed.

(** The loop invariant of the binary search: everything left of [lo] is
    below the key, everything from [hi] on is not. *)
Lemma bisect_left_inv fuel (a : list Z) key lo hi :
  StronglySorted Z.le a →
  lo ≤ hi → hi ≤ length a → hi - lo ≤ fuel →
  (∀ i x, i < lo → a !! i = Some x → (x < key)%Z) →
  (∀ i x, hi ≤ i → a !! i = Some x → (key ≤ x)%Z) →
  np.bisect_left fuel a key lo hi ≤ length a ∧
  (∀ i x, i < np.bisect_left fuel a key lo hi → a !! i = Some x → (x < key)%Z) ∧
  (∀ i x, np.bisect_left fuel a key lo hi ≤ i → a !! i = Some x → (key ≤ x)%Z).
Proof.
  intros Hs. revert lo hi.
  induction fuel as [|fuel IH]; intros lo hi Hle Hhi Hfuel Hlo Hup.
  - simpl. assert (lo = hi) by lia. subst. split; [lia|]. split; assumption.
  - rewrite bisect_left_step. destruct (decide (lo < hi)) as [Hlt|Hge].
    + assert (Hmid : lo ≤ lo + (hi - lo) / 2 < hi).
      { pose proof (Nat.Div0.div_lt_upper_bound (hi - lo) 2 (hi - lo)). lia. }
      set (mid := lo + (hi - lo) / 2) in *.
      destruct (a !! mid) as [x|] eqn:Hx.
      * destruct (decide (x < key)%Z) as [Hk|Hk].
        -- apply IH; try lia; [|assumption].
           intros i y Hi Hy.
           assert (y ≤ x)%Z by (eapply (StronglySorted_lookup_le a i mid); eauto; lia).
           lia.
        -- apply IH; try lia; [assumption|].
           intros i y Hi Hy.
           assert (x ≤ y)%Z by (eapply (StronglySorted_lookup_le a mid i); eauto; lia).
           lia.
      * apply lookup_ge_None in Hx. lia.
    + assert (lo = hi) by lia. subst. split; [lia|]. split; assumption.
Qed.

(** On a sorted array, the search finds the position of a member. *)
Lemma searchsorted1_member (a : list Z) key :
  StronglySorted Z.lt a → key ∈ a →
  a !! np.searchsorted1 a key = Some key.
Proof.
  intros Hs Hin.
  assert (Hbelow : ∀ i x, i < 0 → a !! i = Some x → (x < key)%Z)
    by (intros; lia).
  assert (Habove : ∀ i x, length a ≤ i → a !! i = Some x → (key ≤ x)%Z).
  { intros i x Hi Hx. apply lookup_lt_Some in Hx. lia. }
  destruct (bisect_left_inv (length a) a key 0 (length a)
              (StronglySorted_lt_le _ Hs) ltac:(lia) ltac:(lia) ltac:(lia)
              Hbelow Habove) as (Hr & Hlow & Hup).
  fold (np.searchsorted1 a key) in *.
  set (r := np.searchsorted1 a key) in *.
  apply list_elem_of_lookup in Hin as [k Hk].
  assert (r ≤ k).
  { destruct (decide (r ≤ k)); [assumption|].
    specialize (Hlow k key ltac:(lia) Hk). lia. }
  pose proof (lookup_lt_Some _ _ _ Hk) as Hklen.
  destruct (a !! r) as [x|] eqn:Hx; [|apply lookup_ge_None in Hx; lia].
  assert (key ≤ x)%Z by (eapply Hup; [|eassumption]; lia).
  assert (x ≤ key)%Z.
  { eapply (StronglySorted_lookup_le a r k); eauto using StronglySorted_lt_le. }
  f_equal. lia.
Qed.

Lemma mask_changes_sorted prev (l : list Z) :
  Sorted Z.le (prev :: l) →
  StronglySorted Z.lt (prev :: np.mask_changes prev l).
Proof.
  revert prev. induction l as [|x t IH]; intros prev Hs; simpl.
  - repeat constructor.
  - apply Sorted_inv in Hs as [Hs Hhd]. apply HdRel_inv in Hhd.
    destruct (decide (x = prev)) as [->|Hne].
    + apply IH. assumption.
    + specialize (IH x Hs).
      constructor; [assumption|].
      apply StronglySorted_inv in IH as [_ Hall].
      constructor; [lia|].
      eapply Forall_impl; [exact Hall|]. intros; simpl in *; lia.
Qed.

Lemma mask_changes_elem prev (l : list Z) y :
  y ∈ prev :: np.mask_changes prev l ↔ y ∈ prev :: l.
Proof.
  revert prev. induction l as [|x t IH]; intros prev; simpl; [done|].
  destruct (decide (x = prev)) as [->|Hne].
  - rewrite IH, !elem_of_cons. tauto.
  - rewrite !(elem_of_cons _ y prev), IH. done.
Qed.

Lemma unique_sorted (a : np.ndarray Z) : StronglySorted Z.lt (np.unique a).
Proof.
  unfold np.unique.
  pose proof (Sorted_merge_sort Z.le (np.data a)) as Hs.
  fold (np.sort (np.data a)) in Hs.
  destruct (np.sort (np.data a)); [constructor|].
  by apply mask_changes_sorted.
Qed.

Lemma unique_elem (a : np.ndarray Z) y : y ∈ np.unique a ↔ y ∈ np.data a.
Proof.
  unfold np.unique.
  pose proof (merge_sort_Permutation Z.le (np.data a)) as Hp.
  fold (np.sort (np.data a)) in Hp.
  transitivity (y ∈ np.sort (np.data a)); [|by rewrite Hp].
  clear Hp. destruct (np.sort (np.data a)); [done|].
  apply mask_changes_elem.
Qed.

(** Sorting what is already strictly ascending changes nothing. *)
Lemma sort_sorted (l : list Z) : StronglySorted Z.lt l → np.sort l = l.
Proof.
  intros Hs. apply (StronglySorted_unique Z.le).
  - apply StronglySorted_merge_sort; apply _.
  - by apply StronglySorted_lt_le.
  - apply merge_sort_Permutation.
Qed.

End np_facts.

(** ** Facts about the pandas model *)

Section pd_facts.

Context {L V : Type}.

Lemma length_rows_of d k (flat : list V) : length (pd.rows_of d k flat) = d.
Proof. unfold pd.rows_of. by rewrite length_fmap, length_seq. Qed.

Lemma lookup_rows_of d k (flat : list V) t :
  t < d → pd.rows_of d k flat !! t = Some (take k (drop (t * k) flat)).
Proof.
  intros Ht. unfold pd.rows_of.
  rewrite list_lookup_fmap, lookup_seq_lt by done. done.
Qed.

Lemma rectangular_rows_of d k (flat : list V) :
  length flat = d * k → pd.rectangular k (pd.rows_of d k flat).
Proof.
  intros Hlen. unfold pd.rectangular, pd.rows_of.
  apply Forall_fmap, Forall_forall. intros i Hi.
  apply elem_of_seq in Hi. simpl.
  rewrite length_take, length_drop. nia.
Qed.

Lemma lookup_row_cell k (flat : list V) t c :
  c < k → take k (drop (t * k) flat) !! c = flat !! (t * k + c).
Proof. intros Hc. by rewrite lookup_take_lt, lookup_drop. Qed.

Lemma concat_replicate_nil k : concat (replicate k (@nil V)) = [].
Proof. induction k; simpl; auto. Qed.

(** Putting a row in front of the columns adds exactly its cells. *)
Lemma concat_zip_with_cons (r : list V) (cols : list (list V)) :
  length r = length cols →
  concat (zip_with cons r cols) ≡ₚ r ++ concat cols.
Proof.
  revert cols. induction r as [|x r IH]; intros [|c cols] Hlen;
    simplify_eq/=; [done|].
  rewrite IH by done.
  rewrite (app_assoc c r), (Permutation_app_comm c r), <- app_assoc. done.
Qed.

Lemma length_transpose k (rows : list (list V)) :
  pd.rectangular k rows → length (pd.transpose k rows) = k.
Proof.
  induction 1 as [|r rows Hr _ IH]; simpl.
  - by rewrite length_replicate.
  - rewrite length_zip_with, IH. lia.
Qed.

Lemma transpose_Permutation k (rows : list (list V)) :
  pd.rectangular k rows → concat (pd.transpose k rows) ≡ₚ concat rows.
Proof.
  induction 1 as [|r rows Hr Hrows IH]; simpl.
  - by rewrite concat_replicate_nil.
  - rewrite concat_zip_with_cons, IH; [done|].
    by rewrite length_transpose.
Qed.

Lemma length_concat_transpose k (rows : list (list V)) :
  pd.rectangular k rows →
  length (concat (pd.transpose k rows)) = k * length rows.
Proof.
  intros Hrect. rewrite (transpose_Permutation k rows Hrect).
  induction Hrect as [|r rows Hr _ IH]; simpl; [lia|].
  rewrite length_app, IH. lia.
Qed.

Lemma length_bind_replicate (labels : list L) n :
  length (labels ≫= replicate n) = length labels * n.
Proof.
  induction labels as [|c labels IH]; [done|].
  rewrite bind_cons, length_app, length_replicate, IH. done.
Qed.

(** Melting a pd.rectangular frame relabels its cells and nothing else. *)
Lemma melt_values (df : pd.DataFrame L V) :
  pd.rectangular (pd.shape1 df) (pd.values df) →
  pd.value_column (pd.melt df) ≡ₚ pd.cells df.
Proof.
  intros Hrect. unfold pd.value_column, pd.melt, pd.cells, pd.ravel_F.
  rewrite snd_zip.
  - by apply transpose_Permutation.
  - rewrite length_bind_replicate, length_concat_transpose by done.
    unfold pd.shape0, pd.shape1. lia.
Qed.

(** A frame built from a well-formed array is pd.rectangular. *)
Lemma of_ndarray_rectangular (a : np.ndarray V) (cols : list L) df :
  np.wf a → pd.of_ndarray a cols = Ok df →
  pd.rectangular (pd.shape1 df) (pd.values df).
Proof.
  unfold np.wf, pd.of_ndarray, np.prod. intros Hwf Hdf.
  destruct (np.shape a) as [|d [|k [|? ?]]]; simpl in *; try discriminate.
  - destruct (decide (length cols = 1)) as [Hc|]; [|discriminate].
    simplify_eq. unfold pd.shape1; simpl. rewrite Hc.
    apply rectangular_rows_of. lia.
  - destruct (decide (length cols = k)) as [Hc|]; [|discriminate].
    simplify_eq. unfold pd.shape1; simpl.
    apply rectangular_rows_of. lia.
Qed.

End pd_facts.

Section from_product_facts.

Context {A B : Type}.

Lemma length_from_product (a : list A) (b : list B) :
  length (pd.from_product a b) = length a * length b.
Proof.
  unfold pd.from_product. induction a as [|x a IH]; [done|].
  rewrite bind_cons, length_app, length_fmap, IH. done.
Qed.

Lemma lookup_from_product (a : list A) (b : list B) s p x y :
  a !! s = Some x → b !! p = Some y →
  pd.from_product a b !! (s * length b + p) = Some (x, y).
Proof.
  unfold pd.from_product. revert s.
  induction a as [|x0 a IH]; intros s Hs Hp; [by rewrite lookup_nil in Hs|].
  rewrite bind_cons. destruct s as [|s]; simpl in Hs.
  - simplify_eq. rewrite lookup_app_l.
    + simpl. by rewrite list_lookup_fmap, Hp.
    + rewrite length_fmap. simpl. by eapply lookup_lt_Some.
  - rewrite lookup_app_r; rewrite length_fmap; [|lia].
    replace (S s * length b + p - length b) with (s * length b + p) by lia.
    by apply IH.
Qed.

End from_product_facts.

(** ** The normalizer and the constructor *)

Section normalizer.

Context {C V : Type}.
Implicit Types (X : pd.DataFrame C V) (subject_ids : np.ndarray Z).

Lemma normalizer_unique X subject_ids :
  unique_subject_ids (_get_subj_idx X subject_ids) = np.unique subject_ids.
Proof. simpl. apply sort_sorted, unique_sorted. Qed.

Lemma normalizer_lookup X subject_ids i s :
  np.data subject_ids !! i = Some s →
  ∃ k, np.data (subj_idx (_get_subj_idx X subject_ids)) !! i = Some k
       ∧ unique_subject_ids (_get_subj_idx X subject_ids) !! k = Some s.
Proof.
  intros Hi.
  pose proof (normalizer_unique X subject_ids) as Hu. simpl in *.
  exists (np.searchsorted1 (np.sort (np.unique subject_ids)) s). split.
  - by rewrite list_lookup_fmap, Hi.
  - rewrite Hu. apply searchsorted1_member; [apply unique_sorted|].
    apply unique_elem. by eapply list_elem_of_lookup_2.
Qed.

Lemma normalizer_count X subject_ids :
  n_subjects (_get_subj_idx X subject_ids)
  = size (list_to_set (np.data subject_ids) : gset Z).
Proof.
  pose proof (normalizer_unique X subject_ids) as Hu. simpl in *. rewrite Hu.
  rewrite <- (size_list_to_set (C:=gset Z))
    by apply StronglySorted_lt_NoDup, unique_sorted.
  f_equal. apply set_eq. intros y.
  rewrite !elem_of_list_to_set. apply unique_elem.
Qed.

Lemma normalizer_range X subject_ids i k :
  np.data (subj_idx (_get_subj_idx X subject_ids)) !! i = Some k →
  0 ≤ k < n_subjects (_get_subj_idx X subject_ids).
Proof.
  intros Hk. split; [lia|].
  assert (is_Some (np.data subject_ids !! i)) as [s Hs].
  { apply lookup_lt_is_Some. apply lookup_lt_Some in Hk.
    simpl in Hk. by rewrite length_fmap in Hk. }
  destruct (normalizer_lookup X subject_ids i s Hs) as (k' & Hk' & Hu).
  simplify_eq. simpl. by eapply lookup_lt_Some.
Qed.

Lemma normalizer_length X subject_ids :
  length (np.data (subj_idx (_get_subj_idx X subject_ids)))
  = length (np.data subject_ids).
Proof. simpl. by rewrite length_fmap. Qed.

(** What a successful construction has checked and stored. *)
Lemma init_Ok X subject_ids mdl :
  HierarchicalModel_init X subject_ids = Ok mdl →
  mdl = _get_subj_idx X (np.squeeze subject_ids)
  ∧ np.shape0 (np.squeeze subject_ids) = Ok (pd.shape0 X).
Proof.
  unfold HierarchicalModel_init. intros H.
  destruct (np.shape0 (np.squeeze subject_ids)) as [n0|e]; [|discriminate].
  destruct (decide (n0 ≠ pd.shape0 X)) as [|Heq]; [discriminate|].
  simplify_eq. split; [done|]. f_equal.
  destruct (decide (n0 = pd.shape0 X)); [done|contradiction].
Qed.

(** Squeezing never leaves a leading axis of length one. *)
Lemma squeeze_shape0_not_1 {A} (a : np.ndarray A) :
  np.shape0 (np.squeeze a) ≠ Ok 1.
Proof.
  unfold np.shape0, np.squeeze. simpl.
  destruct (filter (λ d, d ≠ 1) (np.shape a)) as [|d dims] eqn:Hf; [done|].
  intros [= ->].
  assert (1 ∈ filter (λ d, d ≠ 1) (np.shape a)) as Hin
    by (rewrite Hf; apply list_elem_of_here).
  apply list_elem_of_filter in Hin as [Hne _]. by apply Hne.
Qed.



(** C10: a one-element identifier sequence is squeezed to a 0-dimensional
    array, so the constructor raises [IndexError] whatever the design matrix
    is; and no identifier array at all is accepted for a design matrix of
    exactly one row. *)
Theorem single_observation_never_constructed X :
  (∀ s : Z, HierarchicalModel_init X (np.array [s]) = Raise IndexError)
  ∧ (pd.shape0 X = 1 →
     ∀ subject_ids, ∃ e, HierarchicalModel_init X subject_ids = Raise e).
Proof.
  split; [done|].
  intros HX subject_ids.
  destruct (HierarchicalModel_init X subject_ids) as [mdl|e] eqn:H; [|eauto].
  apply init_Ok in H as [_ H]. rewrite HX in H.
  by apply squeeze_shape0_not_1 in H.
Qed.

(** C3, as the code has it: for a one-dimensional identifier sequence of at
    least two entries whose length differs from the row count of the design
    matrix, the constructor raises the exception with the fixed message
    [msg_subjects]. *)
Theorem init_length_mismatch X (ids : list Z) :
  2 ≤ length ids → length ids ≠ pd.shape0 X →
  HierarchicalModel_init X (np.array ids) = Raise InputShapeError.
Proof.
  intros H2 Hne. unfold HierarchicalModel_init, np.squeeze, np.array. simpl.
  rewrite filter_cons_True by lia. simpl.
  destruct (decide (length ids ≠ pd.shape0 X)); [done|contradiction].
Qed.

End normalizer.

(** ** The adapters *)

Section adapters.

Context {C V Opts MultiTrace : Type}.
Implicit Types (X : pd.DataFrame C V) (subject_ids : np.ndarray Z).
Implicit Types (w : world (HierarchicalStanModel C V) (StanCall V Opts)).
Implicit Types (sampling : StanCall V Opts → result (StanFit V)).
Implicit Types (pm_declare : PmModel C V → result unit).
Implicit Types (pm_sample : PmCall C V Opts → result MultiTrace).

(** What one sampling call on the Stan adapter does, case by case. *)
Lemma stan_sample_run sampling signal chains iter kwargs
    (mdl : HierarchicalStanModel C V) (log : list (StanCall V Opts)) :
  HierarchicalStanModel_sample sampling signal chains iter kwargs (World mdl log)
  = match HierarchicalModel_sample (stan_base mdl) signal chains
          return result unit * world _ _ with
    | Raise e => (Raise e, World mdl log)
    | Ok _ =>
        let call := {| call_data := stan_data mdl signal; call_chains := chains;
                       call_iter := iter; call_kwargs := kwargs |} in
        match sampling call with
        | Ok fit => (Ok tt, World (StanModel (stan_base mdl) (Some fit))
                                  (log ++ [call]))
        | Raise e => (Raise e, World mdl (log ++ [call]))
        end
    end.
Proof.
  unfold_method.
  destruct (HierarchicalModel_sample (stan_base mdl) signal chains); [|done].
  by destruct (sampling _).
Qed.

(** The accessors assign nothing and call nothing. *)
Lemma accessor_pure (op : StanOp V Opts) sampling w :
  is_accessor op = true → (stan_call sampling op w).2 = w.
Proof.
  destruct w as [[base [fit|]] log], op as [| [] | [] |]; try done; intros _;
    unfold stan_call; unfold_method; try done.
  - destruct (np.shape0 _); [|done]. simpl.
    destruct (np.reshape2 _ _ _); [|done]. by destruct (pd.of_ndarray _ _).
  - destruct (np.shape0 _); [|done]. simpl.
    destruct (np.reshape2 _ _ _); [|done]. by destruct (pd.of_ndarray _ _).
  - by destruct (pd.of_ndarray _ _).
  - by destruct (pd.of_ndarray _ _).
Qed.

Lemma stan_call_base (op : StanOp V Opts) sampling w :
  stan_base (self (stan_call sampling op w).2) = stan_base (self w).
Proof.
  destruct (is_accessor op) eqn:Hop; [by rewrite accessor_pure|].
  destruct op as [signal chains iter kwargs| | |]; try discriminate.
  destruct w as [mdl log]. unfold stan_call. rewrite stan_sample_run.
  cbv zeta. destruct (HierarchicalModel_sample _ _ _); [|done].
  by destruct (sampling _).
Qed.

Lemma stan_calls_base (ops : list (StanOp V Opts)) sampling w :
  stan_base (self (stan_calls sampling ops w)) = stan_base (self w).
Proof.
  revert w. induction ops as [|op ops IH]; intros w; [done|].
  unfold stan_calls in *. simpl. by rewrite IH, stan_call_base.
Qed.

Lemma pymc3_sample_base pm_declare pm_sample signal chains iter kwargs
    (w : world (HierarchicalPymc3Model C V MultiTrace) (PmCall C V Opts)) :
  pymc3_base (self (HierarchicalPymc3Model_sample pm_declare pm_sample signal
                      chains iter kwargs w).2)
  = pymc3_base (self w).
Proof.
  destruct w as [mdl log]. unfold_method.
  destruct (pm_declare _); [|done]. by destruct (pm_sample _).
Qed.

Lemma pymc3_calls_base pm_declare pm_sample (ops : list (PmOp V Opts))
    (w : world (HierarchicalPymc3Model C V MultiTrace) (PmCall C V Opts)) :
  pymc3_base (self (pymc3_calls pm_declare pm_sample ops w))
  = pymc3_base (self w).
Proof.
  revert w. induction ops as [|op ops IH]; intros w; [done|].
  unfold pymc3_calls in *. simpl. by rewrite IH, pymc3_sample_base.
Qed.

(** C9: whatever state an adapter object is in, a sampling call or an
    accessor call, and so any sequence of them, leaves the design matrix,
    the subject identifiers, the sorted unique identifiers, the subject
    count and the derived index exactly as they were. *)
Theorem construction_attributes_unchanged sampling pm_declare pm_sample :
  (∀ (ops : list (StanOp V Opts)) w,
     let base := stan_base (self w) in
     let base' := stan_base (self (stan_calls sampling ops w)) in
     X base' = X base ∧ subject_ids base' = subject_ids base
     ∧ unique_subject_ids base' = unique_subject_ids base
     ∧ n_subjects base' = n_subjects base ∧ subj_idx base' = subj_idx base)
  ∧ (∀ (ops : list (PmOp V Opts))
       (w : world (HierarchicalPymc3Model C V MultiTrace) (PmCall C V Opts)),
     let base := pymc3_base (self w) in
     let base' :=
       pymc3_base (self (pymc3_calls pm_declare pm_sample ops w)) in
     X base' = X base ∧ subject_ids base' = subject_ids base
     ∧ unique_subject_ids base' = unique_subject_ids base
     ∧ n_subjects base' = n_subjects base ∧ subj_idx base' = subj_idx base).
Proof.
  split; intros ops w; simpl.
  - by rewrite stan_calls_base.
  - by rewrite pymc3_calls_base.
Qed.

Lemma init_invariant X subject_ids base :
  HierarchicalModel_init X subject_ids = Ok base →
  subject_index_invariant subject_ids base.
Proof.
  intros [-> _]%init_Ok. split; [|split].
  - exact (normalizer_count X (np.squeeze subject_ids)).
  - exact (normalizer_length X (np.squeeze subject_ids)).
  - apply normalizer_range.
Qed.

Lemma stan_init_Ok X subject_ids mdl :
  HierarchicalStanModel_init X subject_ids = Ok mdl →
  HierarchicalModel_init X subject_ids = Ok (stan_base mdl)
  ∧ stan_results mdl = None.
Proof.
  unfold HierarchicalStanModel_init.
  destruct (HierarchicalModel_init X subject_ids); intros [= <-]; done.
Qed.

Lemma pymc3_init_Ok X subject_ids (mdl : HierarchicalPymc3Model C V MultiTrace) :
  HierarchicalPymc3Model_init X subject_ids = Ok mdl →
  HierarchicalModel_init X subject_ids = Ok (pymc3_base mdl).
Proof.
  unfold HierarchicalPymc3Model_init.
  destruct (HierarchicalModel_init X subject_ids); intros [= <-]; done.
Qed.

(** C7: the index a constructed model derives has one entry per
    observation, each a rank [0 <= subj_idx[i] < j] where [j = n_subjects]
    is the number of distinct identifiers; this holds right after
    construction and after any sequence of calls on either adapter. *)
Theorem subject_index_in_range sampling pm_declare pm_sample X subject_ids :
  (∀ mdl (ops : list (StanOp V Opts)),
     HierarchicalStanModel_init X subject_ids = Ok mdl →
     subject_index_invariant subject_ids
       (stan_base (self (stan_calls sampling ops (World mdl [])))))
  ∧ (∀ (mdl : HierarchicalPymc3Model C V MultiTrace) (ops : list (PmOp V Opts)),
     HierarchicalPymc3Model_init X subject_ids = Ok mdl →
     subject_index_invariant subject_ids
       (pymc3_base
          (self (pymc3_calls pm_declare pm_sample ops (World mdl []))))).
Proof.
  split; intros mdl ops Hinit.
  - rewrite stan_calls_base. simpl.
    apply stan_init_Ok in Hinit as [Hinit _]. by eapply init_invariant.
  - rewrite pymc3_calls_base. simpl.
    apply pymc3_init_Ok in Hinit. by eapply init_invariant.
Qed.

End adapters.

(** ** Sampling and the accessors of the Stan adapter *)

Section stan_adapter.

Context {C V Opts : Type}.
Implicit Types (X : pd.DataFrame C V) (subject_ids : np.ndarray Z).
Implicit Types (w : world (HierarchicalStanModel C V) (StanCall V Opts)).
Implicit Types (sampling : StanCall V Opts → result (StanFit V)).

(** C8: when [sample] of the Stan adapter gets past its length check, it
    calls the engine once, with a data dictionary whose [subj_idx] is the
    normalizer's 0-based index plus one, so that every entry lies in
    [1..j], and whose [n], [j] and [m] are the row count of [X], the
    subject count and the column count of [X]. *)
Theorem stan_data_is_one_based sampling X subject_ids mdl
    (ops : list (StanOp V Opts)) signal chains iter kwargs :
  HierarchicalStanModel_init X subject_ids = Ok mdl →
  HierarchicalModel_sample (stan_base mdl) signal chains = Ok tt →
  ∃ call,
    engine_log (HierarchicalStanModel_sample sampling signal chains iter kwargs
                  (stan_calls sampling ops (World mdl []))).2
    = engine_log (stan_calls sampling ops (World mdl [])) ++ [call]
    ∧ call_chains call = chains ∧ call_iter call = iter
    ∧ data_measure (call_data call) = signal
    ∧ np.data (data_subj_idx (call_data call))
      = (λ k, k + 1) <$> np.data (subj_idx (stan_base mdl))
    ∧ Forall (λ k, 1 ≤ k ≤ data_j (call_data call))
        (np.data (data_subj_idx (call_data call)))
    ∧ data_n (call_data call) = pd.shape0 X
    ∧ data_j (call_data call) = n_subjects (stan_base mdl)
    ∧ data_j (call_data call)
      = size (list_to_set (np.data subject_ids) : gset Z)
    ∧ data_m (call_data call) = pd.shape1 X.
Proof.
  intros Hinit Hcheck.
  pose proof (stan_calls_base ops sampling (World mdl [])) as Hbase.
  destruct (stan_calls sampling ops (World mdl [])) as [mdl' log].
  simpl in Hbase. rewrite stan_sample_run, Hbase, Hcheck. cbv zeta.
  apply stan_init_Ok in Hinit as [Hinit _].
  pose proof (init_invariant _ _ _ Hinit) as (Hcount & _ & Hrange).
  apply init_Ok in Hinit as [Hmdl _].
  eexists. split; [by destruct (sampling _)|].
  unfold stan_data. simpl. rewrite Hbase.
  repeat split; try done.
  - apply list_fmap_ext. intros; lia.
  - apply Forall_fmap, Forall_forall. intros k Hk. simpl.
    apply list_elem_of_lookup in Hk as [i Hi].
    specialize (Hrange i k Hi). lia.
  - by rewrite Hmdl.
  - by rewrite Hmdl.
Qed.

Lemma unsampled_no_results sampling w :
  unsampled sampling w → stan_results (self w) = None.
Proof.
  induction 1 as [X subject_ids mdl Hinit
                 |w signal chains iter kwargs e w' Hw IH Hrun
                 |w op Hw IH Hop].
  - by apply stan_init_Ok in Hinit as [_ ?].
  - destruct w as [mdl log]. rewrite stan_sample_run in Hrun. cbv zeta in Hrun.
    destruct (HierarchicalModel_sample _ _ _); [|by simplify_eq].
    destruct (sampling _); by simplify_eq.
  - by rewrite accessor_pure.
Qed.

(** C4: as long as no sampling call has succeeded (right after
    construction, after accessor calls, after sampling calls that raised),
    each of the three accessors of the Stan adapter raises the exception
    'Model has not been sampled yet!'. *)
Theorem accessors_need_sampling sampling w :
  unsampled sampling w →
  ∀ melt,
    (get_subject_traces melt w).1 = Raise NotSampledError
    ∧ (get_group_traces melt w).1 = Raise NotSampledError
    ∧ (get_group_parameters w).1 = Raise NotSampledError.
Proof.
  intros Hw%unsampled_no_results melt. destruct w as [mdl log].
  unfold_method. by rewrite Hw.
Qed.

Lemma reshape_wf (a b : np.ndarray V) dims :
  np.wf a → np.reshape a dims = Ok b → np.wf b ∧ np.shape b = dims.
Proof.
  unfold np.reshape, np.wf. intros Hwf.
  destruct (decide _) as [Heq|]; [|done]. intros [= <-]. simpl.
  split; [congruence|done].
Qed.

Lemma reshape2_wf (a b : np.ndarray V) d k :
  np.wf a → np.reshape2 a d k = Ok b → np.wf b.
Proof.
  destruct k as [k|]; [|done]. intros Hwf Hre.
  by destruct (reshape_wf _ _ _ Hwf Hre).
Qed.

(** C5: for a sampled model whose stored draws are well-formed arrays,
    whenever an accessor returns the wide table, the same accessor asked
    for the long form returns a table whose value column is a permutation
    of the cells of the wide table; this holds for the subject traces and
    for the group traces. *)
Theorem melt_preserves_values w fit :
  stan_results (self w) = Some fit →
  np.wf (beta_subject fit) → np.wf (beta_group fit) →
  (∀ wide, (get_subject_traces false w).1 = Ok (Wide wide) →
     ∃ long, (get_subject_traces true w).1 = Ok (Long long)
             ∧ pd.value_column long ≡ₚ pd.cells wide)
  ∧ (∀ wide, (get_group_traces false w).1 = Ok (Wide wide) →
     ∃ long, (get_group_traces true w).1 = Ok (Long long)
             ∧ pd.value_column long ≡ₚ pd.cells wide).
Proof.
  intros Hfit Hs Hg. destruct w as [mdl log]. simpl in Hfit.
  split; intros wide; unfold_method; rewrite Hfit.
  - destruct (np.shape0 (beta_subject fit)) as [draws|]; [|done]. simpl.
    destruct (np.reshape2 _ _ _) as [traces|] eqn:Hre; [|done]. simpl.
    destruct (pd.of_ndarray traces _) as [df|] eqn:Hdf; [|done]. simpl.
    intros [= <-]. eexists. split; [done|].
    apply melt_values. eapply of_ndarray_rectangular; [|exact Hdf].
    by apply (reshape2_wf _ _ _ _ Hs Hre).
  - destruct (pd.of_ndarray (beta_group fit) _) as [df|] eqn:Hdf; [|done].
    simpl. intros [= <-]. eexists. split; [done|].
    apply melt_values. by eapply of_ndarray_rectangular.
Qed.

End stan_adapter.

Section subject_traces.

Context {C V Opts : Type}.
Implicit Types (X : pd.DataFrame C V) (subject_ids : np.ndarray Z).
Implicit Types (w : world (HierarchicalStanModel C V) (StanCall V Opts)).
Implicit Types (sampling : StanCall V Opts → result (StanFit V)).

Lemma offset3 d j m t s p : offset [d; j; m] [t; s; p] = t * (j * m) + (s * m + p).
Proof. unfold offset. simpl. lia. Qed.

(** The wide subject table of an object holding a fit of shape
    [(draws, j, m)]. *)
Lemma subject_traces_wide (mdl : HierarchicalStanModel C V)
    (log : list (StanCall V Opts)) fit draws j m :
  stan_results mdl = Some fit →
  np.shape (beta_subject fit) = [draws; j; m] →
  length (unique_subject_ids (stan_base mdl)) = j →
  pd.shape1 (X (stan_base mdl)) = m →
  get_subject_traces false (World mdl log)
  = (Ok (Wide (pd.Frame
                 (pd.from_product (unique_subject_ids (stan_base mdl))
                                  (pd.columns (X (stan_base mdl))))
                 (pd.rows_of draws (j * m) (np.data (beta_subject fit))))),
     World mdl log).
Proof.
  intros Hfit Hshape Hj Hm.
  unfold get_subject_traces, bind, get_self, lift, ret. simpl. rewrite Hfit.
  unfold np.shape0, np.shape_tail, np.reshape2, np.prod_tuple, np.reshape.
  rewrite Hshape. cbn [tail].
  replace (np.prod [j; m]) with (j * m) by (simpl; lia).
  destruct (decide (np.prod [draws; j * m] = np.prod [draws; j; m]))
    as [_|Hne]; [|exfalso; apply Hne; simpl; lia].
  unfold pd.of_ndarray. simpl.
  destruct (decide _) as [_|Hne]; [done|].
  exfalso. apply Hne. rewrite length_from_product, Hj.
  unfold pd.shape1 in Hm. by rewrite Hm.
Qed.

(** C6: after a sampling call on a constructed Stan adapter has succeeded
    and stored a well-formed fit whose [beta_subject] has shape
    [(draws, j, m)], with [j] the subject count and [m] the column count of
    [X], [get_subject_traces] returns a table with [j * m] columns, labelled
    subject-major by the sorted unique identifiers crossed with the columns
    of [X], and [draws] rows of [j * m] cells; the cell of draw [t] in the
    column of subject rank [s] and predictor [p] is [beta_subject[t, s, p]]. *)
Theorem subject_traces_layout sampling X subject_ids mdl
    (ops : list (StanOp V Opts)) signal chains iter kwargs w fit draws :
  HierarchicalStanModel_init X subject_ids = Ok mdl →
  HierarchicalStanModel_sample sampling signal chains iter kwargs
    (stan_calls sampling ops (World mdl [])) = (Ok tt, w) →
  stan_results (self w) = Some fit →
  np.shape (beta_subject fit)
    = [draws; n_subjects (stan_base mdl); pd.shape1 X] →
  np.wf (beta_subject fit) →
  ∃ wide,
    get_subject_traces false w = (Ok (Wide wide), w)
    ∧ pd.columns wide
      = pd.from_product (unique_subject_ids (stan_base mdl)) (pd.columns X)
    ∧ length (pd.columns wide) = n_subjects (stan_base mdl) * pd.shape1 X
    ∧ length (pd.values wide) = draws
    ∧ pd.rectangular (n_subjects (stan_base mdl) * pd.shape1 X) (pd.values wide)
    ∧ (∀ s p sid name,
         unique_subject_ids (stan_base mdl) !! s = Some sid →
         pd.columns X !! p = Some name →
         pd.columns wide !! (s * pd.shape1 X + p) = Some (sid, name))
    ∧ (∀ t s p,
         t < draws → s < n_subjects (stan_base mdl) → p < pd.shape1 X →
         ∃ row, pd.values wide !! t = Some row
                ∧ row !! (s * pd.shape1 X + p)
                  = item (beta_subject fit) [t; s; p]).
Proof.
  intros Hinit Hrun Hfit Hshape Hwf.
  pose proof (stan_calls_base ops sampling (World mdl [])) as Hbase.
  destruct (stan_calls sampling ops (World mdl [])) as [mdl' log].
  simpl in Hbase. rewrite stan_sample_run in Hrun. cbv zeta in Hrun.
  destruct (HierarchicalModel_sample _ _ _); [|by simplify_eq].
  destruct (sampling _) as [fit'|]; [|by simplify_eq].
  injection Hrun as <-. simpl in Hfit. injection Hfit as ->.
  apply stan_init_Ok in Hinit as [[Hmdl _]%init_Ok _].
  assert (HX : attr_X (stan_base mdl) = X) by (by rewrite Hmdl).
  assert (Hj : length (unique_subject_ids (stan_base mdl))
               = n_subjects (stan_base mdl)) by (by rewrite Hmdl).
  set (j := n_subjects (stan_base mdl)) in *.
  set (m := pd.shape1 X) in *.
  eexists. split.
  { eapply (subject_traces_wide _ _ fit draws j m); simpl; try done.
    - by rewrite Hbase.
    - by rewrite Hbase, HX. }
  simpl. rewrite Hbase, HX.
  assert (Hlen : length (np.data (beta_subject fit)) = draws * (j * m)).
  { unfold np.wf in Hwf. rewrite Hshape in Hwf. simpl in Hwf. lia. }
  split; [done|]. split; [by rewrite length_from_product, Hj|].
  split; [apply length_rows_of|].
  split; [by apply rectangular_rows_of|].
  split.
  - intros s p sid name Hs Hp. by apply lookup_from_product.
  - intros t s p Ht Hs Hp. eexists. split; [by apply lookup_rows_of|].
    unfold item. rewrite Hshape, offset3.
    apply lookup_row_cell. nia.
Qed.

End subject_traces.

(** ** The length check of [sample] *)

Section signal_check.

Context {C V Opts MultiTrace : Type}.

(** The Stan adapter runs the inherited check first: a one-dimensional
    signal of a wrong length, other than a single value, is refused with the
    'Signal should have ...' exception before the engine is reached, and the
    object is left as it was. *)
Lemma stan_sample_rejects_length
    (sampling : StanCall V Opts → result (StanFit V))
    (mdl : HierarchicalStanModel C V) (log : list (StanCall V Opts))
    (signal : list V) chains iter kwargs :
  length signal ≠ 1 → length signal ≠ pd.shape0 (X (stan_base mdl)) →
  HierarchicalStanModel_sample sampling (np.array signal) chains iter kwargs
    (World mdl log)
  = (Raise SignalShapeError, World mdl log).
Proof.
  intros H1 Hne. rewrite stan_sample_run.
  unfold HierarchicalModel_sample, np.squeeze, np.array. simpl.
  rewrite filter_cons_True by done. simpl.
  destruct (decide _); [done|contradiction].
Qed.

(** A single value is squeezed to a 0-dimensional array, whose [len] is a
    [TypeError]; the engine is not reached either. *)
Lemma stan_sample_single_value
    (sampling : StanCall V Opts → result (StanFit V))
    (mdl : HierarchicalStanModel C V) (log : list (StanCall V Opts))
    (v : V) chains iter kwargs :
  HierarchicalStanModel_sample sampling (np.array [v]) chains iter kwargs
    (World mdl log)
  = (Raise TypeError, World mdl log).
Proof. by rewrite stan_sample_run. Qed.

(** The PyMC3 adapter overrides [sample] without that check.  The call
    binds [self.model], declares the graph with the signal as it came, and
    samples unless the declaration raised. *)
Lemma pymc3_sample_run
    (pm_declare : PmModel C V → result unit)
    (pm_sample : PmCall C V Opts → result MultiTrace)
    (mdl : HierarchicalPymc3Model C V MultiTrace) (log : list (PmCall C V Opts))
    signal chains iter kwargs :
  let model := pymc3_graph (pymc3_base mdl) signal in
  let call := {| pm_model := model; pm_draws := iter;
                 pm_chains := chains; pm_kwargs := kwargs |} in
  HierarchicalPymc3Model_sample pm_declare pm_sample signal chains iter kwargs
    (World mdl log)
  = match pm_declare model with
    | Raise e =>
        (Raise e, World (Pymc3Model (pymc3_base mdl) (Some model)
                           (pymc3_results mdl)) log)
    | Ok _ =>
        match pm_sample call with
        | Ok trace =>
            (Ok tt, World (Pymc3Model (pymc3_base mdl) (Some model)
                             (Some trace)) (log ++ [call]))
        | Raise e =>
            (Raise e, World (Pymc3Model (pymc3_base mdl) (Some model)
                               (pymc3_results mdl)) (log ++ [call]))
        end
    end.
Proof.
  unfold_method. destruct (pm_declare _); [|done]. by destruct (pm_sample _).
Qed.

End signal_check.

(** C2, evaluated on the PyMC3 adapter: a model of two observations is
    sampled with a signal of three values.  The inherited check would raise
    the signal-shape exception, but [HierarchicalPymc3Model.sample] never
    runs it: it binds [self.model] and declares the graph with the
    mismatched signal.  The call then ends with whatever that declaration
    raises, sampling not reached, or else goes on to [pm.sample]; the
    signal-shape exception is raised nowhere on this path. *)
Theorem pymc3_sample_unchecked_signal {MultiTrace : Type}
    (pm_declare : PmModel string Z → result unit)
    (pm_sample : PmCall string Z unit → result MultiTrace) :
  let base := _get_subj_idx example.X2 (np.array [1; 2]%Z) in
  let mdl := Pymc3Model base None None in
  let graph := pymc3_graph base example.signal3 in
  let call := {| pm_model := graph;
                 pm_draws := 1000; pm_chains := 1; pm_kwargs := tt |} in
  HierarchicalPymc3Model_init example.X2 (np.array [1; 2]%Z) = Ok mdl
  ∧ np.len example.signal3 = Ok 3
  ∧ pd.shape0 (X base) = 2
  ∧ HierarchicalModel_sample base example.signal3 1 = Raise SignalShapeError
  ∧ HierarchicalPymc3Model_sample pm_declare pm_sample example.signal3
      1 1000 tt (World mdl [])
    = match pm_declare graph with
      | Raise e => (Raise e, World (Pymc3Model base (Some graph) None) [])
      | Ok _ =>
          match pm_sample call with
          | Ok trace =>
              (Ok tt, World (Pymc3Model base (Some graph) (Some trace)) [call])
          | Raise e =>
              (Raise e, World (Pymc3Model base (Some graph) None) [call])
          end
      end.
Proof.
  intros base mdl graph call. do 4 (split; [reflexivity|]).
  by rewrite pymc3_sample_run.
Qed.

(** With an engine that answers the declaration the way Theano does for a
    flat index, the three-value signal is refused by the subtraction with a
    [ValueError] and the sampler is not reached, while a one-value signal,
    just as wrong in length, broadcasts and is sampled. *)
Lemma pymc3_sample_on_two_rows {MultiTrace : Type}
    (pm_sample : PmCall string Z unit → result MultiTrace) :
  let mdl := Pymc3Model (_get_subj_idx example.X2 (np.array [1; 2]%Z))
               None None in
  (HierarchicalPymc3Model_sample example.theano_declare pm_sample
     example.signal3 1 1000 tt (World mdl [])).1 = Raise ValueError
  ∧ engine_log (HierarchicalPymc3Model_sample example.theano_declare pm_sample
                  example.signal3 1 1000 tt (World mdl [])).2 = []
  ∧ length (engine_log (HierarchicalPymc3Model_sample example.theano_declare
                          pm_sample (np.array [10%Z]) 1 1000 tt
                          (World mdl [])).2) = 1.
Proof.
  intros mdl. rewrite !pymc3_sample_run. cbv zeta.
  change (example.theano_declare (pymc3_graph (pymc3_base mdl) example.signal3))
    with (@Raise unit ValueError).
  change (example.theano_declare (pymc3_graph (pymc3_base mdl) (np.array [10%Z])))
    with (Ok tt).
  do 2 (split; [done|]). by destruct (pm_sample _).
Qed.

(** C3, as stated, fails on the code: for one identifier against two rows
    the constructor raises [IndexError], which is no shape exception at all;
    for three identifiers against two rows it raises the shape exception,
    whose message names neither count. *)
Lemma init_error_names_no_counts :
  ¬ spec_fails_naming_counts
      (HierarchicalModel_init example.X2 (np.array [7]%Z)) 2 1
  ∧ ¬ spec_fails_naming_counts
        (HierarchicalModel_init example.X2 (np.array [1; 2; 3]%Z)) 2 3.
Proof.
  split; intros (msg & Hraise & Hnames).
  - discriminate Hraise.
  - injection Hraise as <-. vm_compute in Hnames. discriminate Hnames.
Qed.

(** ** The theorems at concrete inputs *)

Section witnesses.

Import example.

(** The identifiers [5, 1, 5, 3, 1]: three subjects, index [2, 0, 2, 1, 0]. *)
Example normalizer_5_1_5_3_1 :
  unique_subject_ids (_get_subj_idx X5 ids5) = [1; 3; 5]%Z
  ∧ n_subjects (_get_subj_idx X5 ids5) = 3
  ∧ np.data (subj_idx (_get_subj_idx X5 ids5)) = [2; 0; 2; 1; 0].
Proof. repeat split. Qed.


Lemma single_observation_never_constructed_witness :
  pd.shape0 X1 = 1
  ∧ HierarchicalModel_init X1 (np.array [7%Z]) = Raise IndexError
  ∧ ∃ e, HierarchicalModel_init X1 (np.NDArray [1; 1] [7%Z]) = Raise e.
Proof.
  split; [reflexivity|].
  destruct (single_observation_never_constructed X1) as [Hone Hany].
  split; [apply Hone|]. apply Hany. reflexivity.
Defined.

Lemma init_length_mismatch_witness :
  2 ≤ length [1; 2; 3]%Z
  ∧ length [1; 2; 3]%Z ≠ pd.shape0 X2
  ∧ HierarchicalModel_init X2 (np.array [1; 2; 3]%Z) = Raise InputShapeError.
Proof.
  split; [simpl; lia|]. split; [vm_compute; lia|].
  apply init_length_mismatch; [simpl; lia|vm_compute; lia].
Defined.

Lemma subject_index_in_range_witness :
  HierarchicalStanModel_init X5 ids5 = Ok (self new5)
  ∧ subject_index_invariant ids5
      (stan_base (self (stan_calls engine_ok
                          [CallSample signal5 1 1000 tt; CallSubjectTraces true]
                          (World (self new5) [])))).
Proof.
  split; [reflexivity|].
  apply (proj1 (@subject_index_in_range string Z unit unit engine_ok
                  (λ _, Ok tt) (λ _, Raise (BackendError "unused"))
                  X5 ids5)).
  reflexivity.
Defined.

Lemma stan_data_is_one_based_witness :
  HierarchicalStanModel_init X5 ids5 = Ok (self new5)
  ∧ HierarchicalModel_sample (stan_base (self new5)) signal5 1 = Ok tt
  ∧ ∃ call,
      engine_log sampled5 = [call]
      ∧ np.data (data_subj_idx (call_data call)) = [3; 1; 3; 2; 1]
      ∧ Forall (λ k, 1 ≤ k ≤ 3) (np.data (data_subj_idx (call_data call)))
      ∧ data_n (call_data call) = 5
      ∧ data_j (call_data call) = 3
      ∧ data_m (call_data call) = 2.
Proof.
  split; [reflexivity|]. split; [reflexivity|].
  destruct (stan_data_is_one_based engine_ok X5 ids5 (self new5) []
              signal5 1 1000 tt eq_refl eq_refl)
    as (call & Hlog & _ & _ & _ & Hidx & Hall & Hn & Hj & _ & Hm).
  exists call. split; [exact Hlog|]. split; [exact Hidx|].
  rewrite Hj in Hall. split; [exact Hall|]. split; [exact Hn|].
  split; [exact Hj|exact Hm].
Defined.

Lemma accessors_need_sampling_witness :
  unsampled engine_fails failed5
  ∧ (get_subject_traces true failed5).1 = Raise NotSampledError
  ∧ (get_group_traces true failed5).1 = Raise NotSampledError
  ∧ (get_group_parameters failed5).1 = Raise NotSampledError.
Proof.
  assert (H : unsampled engine_fails failed5).
  { apply (unsampled_failed engine_fails new5 signal5 1 1000 tt
             (BackendError "divergent") failed5).
    - apply (unsampled_new engine_fails X5 ids5). reflexivity.
    - reflexivity. }
  split; [exact H|]. exact (accessors_need_sampling engine_fails failed5 H true).
Defined.

Lemma melt_preserves_values_witness :
  stan_results (self sampled5) = Some fit5
  ∧ np.wf (beta_subject fit5) ∧ np.wf (beta_group fit5)
  ∧ ∃ wide long,
      (get_subject_traces false sampled5).1 = Ok (Wide wide)
      ∧ (get_subject_traces true sampled5).1 = Ok (Long long)
      ∧ pd.value_column long ≡ₚ pd.cells wide.
Proof.
  split; [reflexivity|]. split; [reflexivity|]. split; [reflexivity|].
  destruct (melt_preserves_values sampled5 fit5 eq_refl eq_refl eq_refl)
    as [Hsubject _].
  destruct (Hsubject _ eq_refl) as (long & Hlong & Hperm).
  eexists _, long. split; [reflexivity|]. split; [exact Hlong|exact Hperm].
Defined.

Lemma subject_traces_layout_witness :
  HierarchicalStanModel_init X5 ids5 = Ok (self new5)
  ∧ HierarchicalStanModel_sample engine_ok signal5 1 1000 tt
      (stan_calls engine_ok [] (World (self new5) [])) = (Ok tt, sampled5)
  ∧ stan_results (self sampled5) = Some fit5
  ∧ np.shape (beta_subject fit5)
    = [2; n_subjects (stan_base (self new5)); pd.shape1 X5]
  ∧ np.wf (beta_subject fit5)
  ∧ ∃ wide,
      get_subject_traces false sampled5 = (Ok (Wide wide), sampled5)
      ∧ length (pd.columns wide) = 6
      ∧ length (pd.values wide) = 2.
Proof.
  do 5 (split; [reflexivity|]).
  destruct (subject_traces_layout engine_ok X5 ids5 (self new5) []
              signal5 1 1000 tt sampled5 fit5 2
              eq_refl eq_refl eq_refl eq_refl eq_refl)
    as (wide & Hget & _ & Hcols & Hrows & _).
  exists wide. split; [exact Hget|]. split; [exact Hcols|exact Hrows].
Defined.

End witnesses.

(** * Further properties of the code *)

(** ** The normalizer, seen from the observations *)

Section ranks.

Context {C V : Type}.
Implicit Types (X : pd.DataFrame C V) (subject_ids : np.ndarray Z).

Lemma StronglySorted_lookup_lt (a : list Z) i j x y :
  StronglySorted Z.lt a → i < j →
  a !! i = Some x → a !! j = Some y → (x < y)%Z.
Proof.
  intros Hs. revert i j.
  induction Hs as [|z a Hs IH Hall]; intros i j Hij Hi Hj.
  - by rewrite lookup_nil in Hi.
  - destruct i as [|i], j as [|j]; simpl in *; try lia.
    + simplify_eq. rewrite Forall_forall in Hall.
      apply Hall. by eapply list_elem_of_lookup_2.
    + eapply IH; [|eassumption..]. lia.
Qed.

(** Where a sorted array splits into what is below a key and what is not,
    that many elements are below the key. *)
Lemma split_point_count (a : list Z) key r :
  r ≤ length a →
  (∀ i x, i < r → a !! i = Some x → (x < key)%Z) →
  (∀ i x, r ≤ i → a !! i = Some x → (key ≤ x)%Z) →
  length (filter (λ x, (x < key)%Z) a) = r.
Proof.
  revert r. induction a as [|x a IH]; intros r Hr Hlow Hup; simpl in *.
  - lia.
  - destruct r as [|r].
    + pose proof (Hup 0 x ltac:(lia) eq_refl).
      rewrite filter_cons_False by lia.
      apply IH; [lia|intros; lia|].
      intros i y _ Hy. apply (Hup (S i) y); [lia|done].
    + pose proof (Hlow 0 x ltac:(lia) eq_refl).
      rewrite filter_cons_True by done.
      simpl. f_equal. apply IH; [lia| |].
      * intros i y Hi Hy. apply (Hlow (S i) y); [lia|done].
      * intros i y Hi Hy. apply (Hup (S i) y); [lia|done].
Qed.

(** [np.searchsorted] on a sorted array counts the elements below the key,
    whether the key occurs or not. *)
Lemma searchsorted1_count (a : list Z) key :
  StronglySorted Z.le a →
  np.searchsorted1 a key = length (filter (λ x, (x < key)%Z) a).
Proof.
  intros Hs. symmetry. apply split_point_count.
  all: assert (Hbelow : ∀ i x, i < 0 → a !! i = Some x → (x < key)%Z)
         by (intros; lia).
  all: assert (Habove : ∀ i x, length a ≤ i → a !! i = Some x → (key ≤ x)%Z)
         by (intros i x Hi Hx; apply lookup_lt_Some in Hx; lia).
  all: destruct (bisect_left_inv (length a) a key 0 (length a) Hs
                   ltac:(lia) ltac:(lia) ltac:(lia) Hbelow Habove)
         as (Hr & Hlow & Hup); assumption.
Qed.

Lemma unique_set subject_ids :
  list_to_set (np.unique subject_ids)
  = (list_to_set (np.data subject_ids) : gset Z).
Proof.
  apply set_eq. intros y. rewrite !elem_of_list_to_set. apply unique_elem.
Qed.

(** What construction guarantees about the unique identifiers and the
    index, in the form the results below use. *)
Lemma constructed_unique_index X subject_ids mdl :
  HierarchicalModel_init X subject_ids = Ok mdl →
  StronglySorted Z.lt (unique_subject_ids mdl)
  ∧ ∀ i s, np.data subject_ids !! i = Some s →
      ∃ k, np.data (subj_idx mdl) !! i = Some k
           ∧ unique_subject_ids mdl !! k = Some s.
Proof.
  intros [-> _]%init_Ok. split.
  - rewrite normalizer_unique. apply unique_sorted.
  - intros i s Hi. by apply (normalizer_lookup X (np.squeeze subject_ids)).
Qed.

(** X1: for integer identifiers, the index of an observation is the
    number of distinct subject identifiers that are smaller than its own. *)
Theorem subj_idx_is_rank X subject_ids mdl i s k :
  HierarchicalModel_init X subject_ids = Ok mdl →
  np.data subject_ids !! i = Some s →
  np.data (subj_idx mdl) !! i = Some k →
  k = size (filter (λ u, (u < s)%Z)
              (list_to_set (np.data subject_ids) : gset Z)).
Proof.
  intros [-> _]%init_Ok Hs Hk.
  pose proof (normalizer_unique X (np.squeeze subject_ids)) as Hu.
  simpl in Hk, Hu. rewrite list_lookup_fmap, Hs in Hk. simpl in Hk.
  injection Hk as <-. rewrite Hu.
  pose proof (unique_sorted (np.squeeze subject_ids)) as Hsorted.
  rewrite searchsorted1_count by by apply StronglySorted_lt_le.
  rewrite <- (size_list_to_set (C:=gset Z))
    by by apply NoDup_filter, StronglySorted_lt_NoDup.
  f_equal. apply set_eq. intros y.
  rewrite elem_of_filter, !elem_of_list_to_set, list_elem_of_filter.
  by rewrite (unique_elem (np.squeeze subject_ids)).
Qed.

(** X2: for integer identifiers, two observations get the same index
    exactly when they carry the same identifier, and the index is ordered
    like the identifiers. *)
Theorem subj_idx_groups_and_orders X subject_ids mdl i i' s s' k k' :
  HierarchicalModel_init X subject_ids = Ok mdl →
  np.data subject_ids !! i = Some s →
  np.data subject_ids !! i' = Some s' →
  np.data (subj_idx mdl) !! i = Some k →
  np.data (subj_idx mdl) !! i' = Some k' →
  (k = k' ↔ s = s') ∧ (k < k' ↔ (s < s')%Z).
Proof.
  intros Hinit Hs Hs' Hk Hk'.
  destruct (constructed_unique_index X subject_ids mdl Hinit)
    as (Hsorted & Hlook).
  destruct (Hlook i s Hs) as (k0 & Hk0 & Hu). simplify_eq.
  destruct (Hlook i' s' Hs') as (k0 & Hk0 & Hu'). simplify_eq.
  assert (Hmono : ∀ a b x y,
            unique_subject_ids mdl !! a = Some x →
            unique_subject_ids mdl !! b = Some y → a < b → (x < y)%Z).
  { intros a b x y Ha Hb Hab. by eapply StronglySorted_lookup_lt. }
  destruct (lt_eq_lt_dec k k') as [[Hlt| ->]|Hgt].
  - specialize (Hmono _ _ _ _ Hu Hu' Hlt). split; split; intros; lia.
  - simplify_eq. split; split; intros; lia.
  - specialize (Hmono _ _ _ _ Hu' Hu Hgt). split; split; intros; lia.
Qed.

End ranks.

Section groups.

Context {C V : Type}.
Implicit Types (X : pd.DataFrame C V) (subject_ids : np.ndarray Z).

Lemma flat_index_shape X (ids : list Z) mdl :
  HierarchicalModel_init X (np.array ids) = Ok mdl →
  np.shape (subj_idx mdl) = [pd.shape0 X]
  ∧ length (np.data (subj_idx mdl)) = pd.shape0 X.
Proof.
  intros Hinit. apply init_Ok in Hinit as [-> Hshape].
  unfold np.shape0, np.squeeze, np.array in *. simpl in *.
  destruct (decide (length ids = 1)) as [Heq|Hne].
  - rewrite Heq in Hshape. discriminate Hshape.
  - rewrite filter_cons_True in * by done. simpl in *.
    injection Hshape as Hlen. rewrite length_fmap. by rewrite Hlen.
Qed.

(** X3: for integer identifiers, every rank below the subject count is the
    index of at least one identifier entry, so no subject is without data,
    and there are never more subjects than identifier entries; when the
    identifiers are a flat sequence, one per observation, there are never
    more subjects than rows of the design matrix. *)
Theorem every_rank_is_used X subject_ids mdl :
  HierarchicalModel_init X subject_ids = Ok mdl →
  (∀ k, k < n_subjects mdl → ∃ i, np.data (subj_idx mdl) !! i = Some k)
  ∧ n_subjects mdl ≤ length (np.data subject_ids)
  ∧ (∀ ids : list Z, subject_ids = np.array ids →
       n_subjects mdl ≤ pd.shape0 X).
Proof.
  intros Hinit.
  destruct (constructed_unique_index X subject_ids mdl Hinit)
    as (Hsorted & Hlook).
  pose proof (StronglySorted_lt_NoDup _ Hsorted) as Hnodup.
  pose proof (init_invariant _ _ _ Hinit) as (_ & Hlen & _).
  pose proof Hinit as Hflat.
  apply init_Ok in Hinit as [Hmdl _].
  assert (Hn : n_subjects mdl = length (unique_subject_ids mdl))
    by by rewrite Hmdl.
  assert (Helem : ∀ y, y ∈ unique_subject_ids mdl → y ∈ np.data subject_ids).
  { intros y. rewrite Hmdl, normalizer_unique.
    apply (unique_elem (np.squeeze subject_ids)). }
  assert (Hle : n_subjects mdl ≤ length (np.data subject_ids)).
  { rewrite Hn. by apply submseteq_length, NoDup_submseteq. }
  split; [|split; [exact Hle|]].
  - intros k Hk. rewrite Hn in Hk.
    apply lookup_lt_is_Some in Hk as [s Hs].
    assert (s ∈ np.data subject_ids) as [i Hi]%list_elem_of_lookup
      by (apply Helem; by eapply list_elem_of_lookup_2).
    destruct (Hlook i s Hi) as (k' & Hk' & Hu).
    exists i. rewrite Hk'. f_equal. by eapply NoDup_lookup.
  - intros ids ->.
    destruct (flat_index_shape X ids mdl Hflat) as (_ & Hrows).
    rewrite <- Hrows, Hlen. exact Hle.
Qed.

(** X4: the sorted unique identifiers and their count depend only on which
    identifiers occur, not on their order, their repetitions or the design
    matrix. *)
Theorem unique_ids_depend_on_the_set X X' subject_ids subject_ids' mdl mdl' :
  HierarchicalModel_init X subject_ids = Ok mdl →
  HierarchicalModel_init X' subject_ids' = Ok mdl' →
  (list_to_set (np.data subject_ids) : gset Z)
    = list_to_set (np.data subject_ids') →
  unique_subject_ids mdl = unique_subject_ids mdl'
  ∧ n_subjects mdl = n_subjects mdl'.
Proof.
  intros [-> _]%init_Ok [-> _]%init_Ok Hset.
  assert (Hu : np.unique (np.squeeze subject_ids)
               = np.unique (np.squeeze subject_ids')).
  { apply (StronglySorted_unique Z.le);
      try (apply StronglySorted_lt_le, unique_sorted).
    apply NoDup_Permutation;
      try (apply StronglySorted_lt_NoDup, unique_sorted).
    intros y. rewrite !unique_elem. simpl.
    by rewrite <- !(elem_of_list_to_set (C:=gset Z)), Hset. }
  pose proof (normalizer_unique X (np.squeeze subject_ids)) as H1.
  pose proof (normalizer_unique X' (np.squeeze subject_ids')) as H2.
  simpl in *. by rewrite H1, H2, Hu.
Qed.

(** X5: identifiers given as an (n, 1) column or a (1, n) row are squeezed
    to the flat sequence: the constructor does with them exactly what it
    does with the flat sequence, error or model. *)
Theorem column_and_row_ids_are_flattened X (ids : list Z) :
  HierarchicalModel_init X (np.NDArray [length ids; 1] ids)
    = HierarchicalModel_init X (np.array ids)
  ∧ HierarchicalModel_init X (np.NDArray [1; length ids] ids)
    = HierarchicalModel_init X (np.array ids).
Proof.
  assert (H1 : ∀ dims : list nat, filter (λ d, d ≠ 1) (1 :: dims)
                                 = filter (λ d, d ≠ 1) dims).
  { intros dims. apply filter_cons_False. intros H. by apply H. }
  unfold HierarchicalModel_init, np.squeeze, np.array.
  cbn [np.shape np.data]. rewrite H1.
  destruct (decide (length ids = 1)) as [->|Hne].
  - by rewrite !H1.
  - rewrite !(filter_cons_True _ (length ids)) by done. by rewrite H1.
Qed.

(** X6: a model built from a flat sequence stores that sequence as it is,
    and its index is a vector with one entry per row of the design matrix. *)
Theorem index_is_aligned_with_rows X (ids : list Z) mdl :
  HierarchicalModel_init X (np.array ids) = Ok mdl →
  subject_ids mdl = np.array ids
  ∧ np.shape (subj_idx mdl) = [pd.shape0 X]
  ∧ length (np.data (subj_idx mdl)) = pd.shape0 X.
Proof.
  intros Hinit. apply init_Ok in Hinit as [-> Hshape].
  unfold np.shape0, np.squeeze, np.array in *. simpl in *.
  destruct (decide (length ids = 1)) as [Heq|Hne].
  - rewrite Heq in Hshape. discriminate Hshape.
  - rewrite filter_cons_True in * by done. simpl in *.
    injection Hshape as Hlen. rewrite length_fmap. by rewrite Hlen.
Qed.

(** X7: on an array of integer identifiers the constructor has three
    outcomes and no other: an [IndexError]
    exactly when every axis of the identifier array has length one (a
    scalar included), the shape exception exactly when the first axis left
    by the squeeze differs from the row count, and a model otherwise. *)
Theorem constructor_outcomes X subject_ids :
  (HierarchicalModel_init X subject_ids = Raise IndexError
     ↔ Forall (λ d, d = 1) (np.shape subject_ids))
  ∧ (HierarchicalModel_init X subject_ids = Raise InputShapeError
     ↔ ∃ d, np.shape0 (np.squeeze subject_ids) = Ok d ∧ d ≠ pd.shape0 X)
  ∧ ((∃ mdl, HierarchicalModel_init X subject_ids = Ok mdl)
     ↔ np.shape0 (np.squeeze subject_ids) = Ok (pd.shape0 X))
  ∧ ∀ e, HierarchicalModel_init X subject_ids = Raise e →
      e = IndexError ∨ e = InputShapeError.
Proof.
  assert (Hnil : filter (λ d, d ≠ 1) (np.shape subject_ids) = []
                 ↔ Forall (λ d, d = 1) (np.shape subject_ids)).
  { induction (np.shape subject_ids) as [|d dims IH]; [done|].
    destruct (decide (d = 1)) as [->|Hne].
    - rewrite filter_cons_False by (intros H; by apply H).
      rewrite Forall_cons. tauto.
    - rewrite filter_cons_True by done. rewrite Forall_cons.
      split; [done|tauto]. }
  unfold HierarchicalModel_init, np.shape0, np.squeeze in *. simpl.
  destruct (filter (λ d, d ≠ 1) (np.shape subject_ids)) as [|d dims].
  - split; [split; [intros _; by apply Hnil|done]|].
    split; [split; [done|by intros (d & Hd & _)]|].
    split; [split; [by intros [mdl H]|done]|].
    intros e [= <-]. by left.
  - assert (Hnot : ¬ Forall (λ d, d = 1) (np.shape subject_ids))
      by (intros H%Hnil; done).
    destruct (decide (d ≠ pd.shape0 X)) as [Hne|Heq].
    + split; [split; [done|by intros H]|].
      split; [split; [intros _; by exists d|done]|].
      split; [split; [by intros [mdl H]|by intros [= ->]]|].
      intros e [= <-]. by right.
    + apply dec_stable in Heq. subst d.
      split; [split; [done|by intros H]|].
      split; [split; [done|by intros (d & [= <-] & Hd)]|].
      split; [split; [done|by eauto]|].
      intros e H. discriminate H.
Qed.

End groups.

(** ** Sequences of calls on the Stan adapter *)

Section stan_sequences.

Context {C V Opts : Type}.
Implicit Types (w : world (HierarchicalStanModel C V) (StanCall V Opts)).
Implicit Types (sampling : StanCall V Opts → result (StanFit V)).

Lemma stan_call_summary sampling (op : StanOp V Opts)
    (mdl : HierarchicalStanModel C V) (log : list (StanCall V Opts)) :
  (stan_call sampling op (World mdl log)).2
  = World (StanModel (stan_base mdl)
             (last_fit sampling (stan_base mdl) [op] (stan_results mdl)))
          (log ++ omap (engine_call_of (stan_base mdl)) [op]).
Proof.
  destruct (is_accessor op) eqn:Hop.
  - rewrite accessor_pure by done.
    destruct mdl, op; try discriminate; simpl; by rewrite app_nil_r.
  - destruct op as [signal chains iter kwargs| | |]; try discriminate.
    unfold stan_call. rewrite stan_sample_run. cbv zeta.
    unfold last_fit. simpl.
    destruct (HierarchicalModel_sample _ _ _); simpl.
    + destruct mdl as [base results]. simpl. by destruct (sampling _).
    + destruct mdl. simpl. by rewrite app_nil_r.
Qed.

(** X8: what a sequence of method calls adds up to.  The inherited
    attributes stay, the engine log grows by exactly one call for each
    [sample] whose signal passes the check, in order and built from the
    inherited attributes, and [results] is the answer to the last of those
    calls that the engine did not refuse (or what it was, if there is
    none). *)
Theorem stan_calls_summary sampling (ops : list (StanOp V Opts)) w :
  stan_calls sampling ops w
  = World (StanModel (stan_base (self w))
             (last_fit sampling (stan_base (self w)) ops
                (stan_results (self w))))
          (engine_log w ++ omap (engine_call_of (stan_base (self w))) ops).
Proof.
  revert w. induction ops as [|op ops IH]; intros [mdl log].
  - destruct mdl. simpl. by rewrite app_nil_r.
  - change (stan_calls sampling (op :: ops) (World mdl log))
      with (stan_calls sampling ops (stan_call sampling op (World mdl log)).2).
    rewrite IH, stan_call_summary. simpl.
    rewrite <- app_assoc. f_equal.
    by destruct (engine_call_of (stan_base mdl) op).
Qed.

(** An accessor reads the object only. *)
Lemma accessors_read_self w w' :
  self w = self w' →
  (∀ melt, (get_subject_traces melt w).1 = (get_subject_traces melt w').1)
  ∧ (∀ melt, (get_group_traces melt w).1 = (get_group_traces melt w').1)
  ∧ (get_group_parameters w).1 = (get_group_parameters w').1.
Proof.
  destruct w as [mdl log], w' as [mdl' log']. simpl. intros <-.
  split; [|split]; [intros melt..|]; unfold_method.
  - destruct (stan_results mdl); [|done].
    destruct (np.shape0 _); [|done]. simpl.
    destruct (np.reshape2 _ _ _); [|done]. simpl.
    destruct (pd.of_ndarray _ _); [|done]. by destruct melt.
  - destruct (stan_results mdl); [|done].
    destruct (pd.of_ndarray _ _); [|done]. by destruct melt.
  - by destruct (stan_results mdl).
Qed.

(** X9: a sampling call that raises, because of the signal or inside the
    engine, leaves the object as it was: the accessors answer afterwards
    what they answered before, and the engine was called at most once. *)
Theorem failed_sample_keeps_results sampling signal chains iter kwargs w e w' :
  HierarchicalStanModel_sample sampling signal chains iter kwargs w
    = (Raise e, w') →
  self w' = self w
  ∧ (∀ melt, (get_subject_traces melt w').1 = (get_subject_traces melt w).1)
  ∧ (∀ melt, (get_group_traces melt w').1 = (get_group_traces melt w).1)
  ∧ (engine_log w' = engine_log w ∨ ∃ call, engine_log w' = engine_log w ++ [call]).
Proof.
  intros Hrun.
  assert (Hself : self w' = self w ∧
                  (engine_log w' = engine_log w
                   ∨ ∃ call, engine_log w' = engine_log w ++ [call])).
  { destruct w as [mdl log]. rewrite stan_sample_run in Hrun. cbv zeta in Hrun.
    destruct (HierarchicalModel_sample _ _ _).
    - destruct (sampling _); simplify_eq. simpl. eauto.
    - simplify_eq. simpl. eauto. }
  destruct Hself as [Hself Hlog].
  destruct (accessors_read_self w' w Hself) as (Hs & Hg & _). done.
Qed.

End stan_sequences.

(** ** The tables the accessors return *)

Section long_form.

Context {L V : Type}.

Lemma lookup_transpose k (rows : list (list V)) c col t row :
  pd.transpose k rows !! c = Some col → rows !! t = Some row →
  col !! t = row !! c.
Proof.
  revert col t. induction rows as [|r rows IH]; intros col t Hcol Hrow.
  - by rewrite lookup_nil in Hrow.
  - simpl in Hcol. apply lookup_zip_with_Some in Hcol
      as (x & col' & -> & Hx & Hcol').
    destruct t as [|t]; simpl in *.
    + by simplify_eq.
    + by apply IH.
Qed.

Lemma transpose_column_lengths k (rows : list (list V)) :
  pd.rectangular k rows →
  Forall (λ col, length col = length rows) (pd.transpose k rows).
Proof.
  induction 1 as [|r rows Hr Hrows IH]; simpl.
  - apply Forall_forall. intros col Hcol.
    apply elem_of_replicate in Hcol as [-> _]. done.
  - apply Forall_lookup. intros c col Hcol.
    apply lookup_zip_with_Some in Hcol as (x & col' & -> & Hx & Hcol').
    simpl. f_equal. by eapply (proj1 (Forall_lookup _ _) IH).
Qed.

Lemma lookup_concat_uniform n (cols : list (list V)) c col t :
  Forall (λ col, length col = n) cols →
  cols !! c = Some col → t < n →
  concat cols !! (c * n + t) = col !! t.
Proof.
  intros Hall. revert c. induction Hall as [|col0 cols Hlen _ IH];
    intros c Hc Ht; [by rewrite lookup_nil in Hc|].
  destruct c as [|c]; simpl in *.
  - simplify_eq. by rewrite lookup_app_l by lia.
  - rewrite lookup_app_r by lia.
    replace (n + c * n + t - length col0) with (c * n + t) by lia.
    by apply IH.
Qed.

Lemma lookup_bind_replicate n (labels : list L) c label t :
  labels !! c = Some label → t < n →
  (labels ≫= replicate n) !! (c * n + t) = Some label.
Proof.
  revert c. induction labels as [|l0 labels IH]; intros c Hc Ht;
    [by rewrite lookup_nil in Hc|].
  rewrite bind_cons. destruct c as [|c]; simpl in Hc.
  - simplify_eq. rewrite lookup_app_l by (rewrite length_replicate; simpl; lia).
    by apply lookup_replicate_2.
  - rewrite lookup_app_r by (rewrite length_replicate; lia).
    rewrite length_replicate.
    replace (S c * n + t - n) with (c * n + t) by lia.
    by apply IH.
Qed.

(** Where each cell of a rectangular frame ends up when it is melted. *)
Lemma melt_layout (df : pd.DataFrame L V) :
  pd.rectangular (pd.shape1 df) (pd.values df) →
  length (pd.melt df) = pd.shape1 df * pd.shape0 df
  ∧ ∀ c t label row v,
      pd.columns df !! c = Some label →
      pd.values df !! t = Some row →
      row !! c = Some v →
      pd.melt df !! (c * pd.shape0 df + t) = Some (label, v).
Proof.
  intros Hrect. unfold pd.melt, pd.ravel_F. split.
  - rewrite length_zip_with, length_bind_replicate,
      length_concat_transpose by done.
    unfold pd.shape0, pd.shape1. lia.
  - intros c t label row v Hlabel Hrow Hv.
    assert (Ht : t < pd.shape0 df) by by eapply lookup_lt_Some.
    assert (is_Some (pd.transpose (pd.shape1 df) (pd.values df) !! c))
      as [col Hcol].
    { apply lookup_lt_is_Some. rewrite length_transpose by done.
      by eapply lookup_lt_Some. }
    apply lookup_zip_Some. split.
    + by apply lookup_bind_replicate.
    + rewrite (lookup_concat_uniform _ _ c col)
        by (done || by apply transpose_column_lengths).
      by rewrite (lookup_transpose _ _ _ _ _ _ Hcol Hrow).
Qed.

End long_form.

Section stan_tables.

Context {C V Opts : Type}.
Implicit Types (w : world (HierarchicalStanModel C V) (StanCall V Opts)).

Lemma offset2 d m t p : offset [d; m] [t; p] = t * m + p.
Proof. unfold offset. simpl. lia. Qed.

(** X10: when the stored [beta_group] is a well-formed array of shape
    [(draws, m)], with [m] the column count of the design matrix,
    [get_group_traces] returns a table with the columns of the design
    matrix, in their order, and one row of [m] cells per draw; the cell of
    draw [t] under predictor [p] is [beta_group[t, p]]. *)
Theorem group_traces_layout w fit draws :
  stan_results (self w) = Some fit →
  np.shape (beta_group fit) = [draws; pd.shape1 (X (stan_base (self w)))] →
  np.wf (beta_group fit) →
  ∃ wide,
    get_group_traces false w = (Ok (Wide wide), w)
    ∧ pd.columns wide = pd.columns (X (stan_base (self w)))
    ∧ length (pd.values wide) = draws
    ∧ pd.rectangular (pd.shape1 (X (stan_base (self w)))) (pd.values wide)
    ∧ ∀ t p,
        t < draws → p < pd.shape1 (X (stan_base (self w))) →
        ∃ row, pd.values wide !! t = Some row
               ∧ row !! p = item (beta_group fit) [t; p].
Proof.
  destruct w as [mdl log]. simpl. intros Hfit Hshape Hwf.
  set (m := pd.shape1 (X (stan_base mdl))) in *.
  assert (Hlen : length (np.data (beta_group fit)) = draws * m).
  { unfold np.wf in Hwf. rewrite Hshape in Hwf. simpl in Hwf. lia. }
  exists (pd.Frame (pd.columns (X (stan_base mdl)))
            (pd.rows_of draws m (np.data (beta_group fit)))).
  split.
  { unfold get_group_traces, bind, get_self, lift, ret. simpl.
    rewrite Hfit. unfold pd.of_ndarray. rewrite Hshape.
    destruct (decide _) as [_|Hne]; [done|]. by destruct Hne. }
  simpl. split; [done|]. split; [apply length_rows_of|].
  split; [by apply rectangular_rows_of|].
  intros t p Ht Hp. eexists. split; [by apply lookup_rows_of|].
  unfold item. rewrite Hshape, offset2. by apply lookup_row_cell.
Qed.

(** X11: the long form of the subject traces is the wide table read column
    by column: it has one row per cell, and row [c * draws + t] pairs the
    cell of draw [t] in column [c] with the label of that very column. *)
Theorem subject_traces_long_layout w fit wide :
  stan_results (self w) = Some fit →
  np.wf (beta_subject fit) →
  (get_subject_traces false w).1 = Ok (Wide wide) →
  ∃ long,
    (get_subject_traces true w).1 = Ok (Long long)
    ∧ length long = length (pd.columns wide) * length (pd.values wide)
    ∧ ∀ c t label row v,
        pd.columns wide !! c = Some label →
        pd.values wide !! t = Some row →
        row !! c = Some v →
        long !! (c * length (pd.values wide) + t) = Some (label, v).
Proof.
  destruct w as [mdl log]. simpl. intros Hfit Hwf.
  unfold_method. rewrite Hfit.
  destruct (np.shape0 (beta_subject fit)) as [draws|]; [|done]. simpl.
  destruct (np.reshape2 _ _ _) as [traces|] eqn:Hre; [|done]. simpl.
  destruct (pd.of_ndarray traces _) as [df|] eqn:Hdf; [|done]. simpl.
  intros [= <-]. eexists. split; [done|].
  apply melt_layout. eapply of_ndarray_rectangular; [|exact Hdf].
  by apply (reshape2_wf _ _ _ _ Hwf Hre).
Qed.

(** X12: with a stored [beta_subject] of at least two axes, the subject
    table is returned exactly when one draw holds as many values as there
    are (subject, predictor) pairs; a fit of any other size is refused
    with [ValueError], a 0-dimensional one with [IndexError], and a
    one-axis one with [TypeError], the product of its empty shape tail
    being a float. *)
Theorem subject_traces_need_matching_size w fit :
  stan_results (self w) = Some fit →
  let pairs := length (unique_subject_ids (stan_base (self w)))
               * pd.shape1 (X (stan_base (self w))) in
  (np.shape (beta_subject fit) = [] →
     ∀ melt, (get_subject_traces melt w).1 = Raise IndexError)
  ∧ (∀ draws, np.shape (beta_subject fit) = [draws] →
     ∀ melt, (get_subject_traces melt w).1 = Raise TypeError)
  ∧ (∀ draws d dims, np.shape (beta_subject fit) = draws :: d :: dims →
       (np.prod (d :: dims) = pairs →
          ∀ melt, ∃ table, (get_subject_traces melt w).1 = Ok table)
       ∧ (np.prod (d :: dims) ≠ pairs →
          ∀ melt, (get_subject_traces melt w).1 = Raise ValueError)).
Proof.
  destruct w as [mdl log]. simpl. intros Hfit. split; [|split].
  - intros Hshape melt. unfold_method. rewrite Hfit.
    unfold np.shape0. by rewrite Hshape.
  - intros draws Hshape melt.
    unfold get_subject_traces, bind, get_self, lift, ret. simpl.
    rewrite Hfit. unfold np.shape0, np.shape_tail. by rewrite Hshape.
  - intros draws d dims Hshape.
    assert (Hrun : ∀ melt,
      (get_subject_traces (Opts:=Opts) melt (World mdl log)).1
      = match pd.of_ndarray
                (np.NDArray [draws; np.prod (d :: dims)]
                   (np.data (beta_subject fit)))
                (pd.from_product (unique_subject_ids (stan_base mdl))
                   (pd.columns (X (stan_base mdl)))) with
        | Ok df => Ok (if melt then Long (pd.melt df) else Wide df)
        | Raise e => Raise e
        end).
    { intros melt. unfold get_subject_traces, bind, get_self, lift, ret.
      simpl. rewrite Hfit.
      unfold np.shape0, np.shape_tail, np.reshape2, np.prod_tuple, np.reshape.
      rewrite Hshape.
      change (tail (draws :: d :: dims)) with (d :: dims). cbv beta iota.
      destruct (decide _) as [_|Hne];
        [|exfalso; apply Hne; unfold np.prod; simpl; lia].
      destruct (pd.of_ndarray _ _); [|done]. by destruct melt. }
    split; intros Hsize melt; rewrite Hrun; unfold pd.of_ndarray;
      cbn [np.shape np.data];
      rewrite length_from_product; unfold pd.shape1 in *.
    + destruct (decide _) as [_|Hne]; [eauto|]. by destruct Hne.
    + destruct (decide _) as [Heq|_]; [|done]. by destruct Hsize.
Qed.

End stan_tables.

(** ** The PyMC3 adapter *)

Section pymc3_adapter.

Context {C V Opts MultiTrace : Type}.
Implicit Types (X : pd.DataFrame C V) (subject_ids : np.ndarray Z).
Implicit Types (pm_declare : PmModel C V → result unit).
Implicit Types (pm_sample : PmCall C V Opts → result MultiTrace).
Implicit Types
  (w : world (HierarchicalPymc3Model C V MultiTrace) (PmCall C V Opts)).


(** X14: the PyMC3 adapter has no length check of its own.  In any
    sequence of [sample] calls, [pm.sample] is called exactly for the calls
    whose declaration did not raise, in order, each on the graph built
    from the inherited attributes and the signal as it was given. *)
Theorem pymc3_samples_without_length_check pm_declare pm_sample
    (ops : list (PmOp V Opts)) w :
  engine_log (pymc3_calls pm_declare pm_sample ops w)
  = engine_log w ++ omap (pm_call_of pm_declare (pymc3_base (self w))) ops.
Proof.
  revert w. induction ops as [|op ops IH]; intros [mdl log].
  - simpl. by rewrite app_nil_r.
  - change (pymc3_calls pm_declare pm_sample (op :: ops) (World mdl log))
      with (pymc3_calls pm_declare pm_sample ops
              (HierarchicalPymc3Model_sample pm_declare pm_sample (op_signal op)
                 (op_chains op) (op_iter op) (op_kwargs op) (World mdl log)).2).
    rewrite IH, pymc3_sample_base, pymc3_sample_run. cbv zeta.
    unfold pm_call_of at 2. simpl.
    destruct (pm_declare _); simpl; [|done].
    destruct (pm_sample _); simpl; by rewrite <- app_assoc.
Qed.

End pymc3_adapter.

(** ** The Stan program against the data it is given *)

Section stan_program_facts.

Context {C V Opts : Type}.
Implicit Types (X : pd.DataFrame C V) (subject_ids : np.ndarray Z).

(** With a 1-based index in range, the loop of the model block picks, for
    each observation, the row its 0-based index names. *)
Lemma stan_beta_shifted (beta_subject : list (list V)) (idx : list nat) :
  Forall (λ k, k < length beta_subject) idx →
  ∃ beta,
    stan_beta beta_subject (S <$> idx) = Ok beta
    ∧ length beta = length idx
    ∧ ∀ i k, idx !! i = Some k → beta !! i = beta_subject !! k.
Proof.
  induction 1 as [|k idx Hk _ (beta & Hbeta & Hlen & Hrows)].
  - exists []. done.
  - apply lookup_lt_is_Some in Hk as [row Hrow].
    exists (row :: beta). rewrite fmap_cons. simpl.
    rewrite Hrow, Hbeta. split; [done|]. split; [by rewrite Hlen|].
    intros [|i] k' Hi; simpl in *; [by simplify_eq|by apply Hrows].
Qed.

(** X15: the shift by one and Stan's 1-based rows agree.  For a constructed
    model and any coefficient matrix with one row per subject, the loop
    [beta[i, :] = beta_subject[subj_idx[i]]] runs through without an index
    error and gives each observation the row that belongs to its own
    identifier, counted in the sorted unique identifiers. *)
Theorem stan_beta_selects_own_subject X subject_ids mdl signal
    (beta_subject : list (list V)) :
  HierarchicalStanModel_init X subject_ids = Ok mdl →
  length beta_subject = data_j (stan_data mdl signal) →
  ∃ beta,
    stan_beta beta_subject (np.data (data_subj_idx (stan_data mdl signal)))
      = Ok beta
    ∧ length beta = length (np.data subject_ids)
    ∧ ∀ i s, np.data subject_ids !! i = Some s →
        ∃ k row,
          unique_subject_ids (stan_base mdl) !! k = Some s
          ∧ beta_subject !! k = Some row
          ∧ beta !! i = Some row.
Proof.
  intros [Hinit _]%stan_init_Ok Hrows. simpl in *.
  pose proof (init_invariant _ _ _ Hinit) as (_ & Hlen & Hrange).
  destruct (constructed_unique_index _ _ _ Hinit) as (_ & Hlook).
  destruct (stan_beta_shifted beta_subject (np.data (subj_idx (stan_base mdl))))
    as (beta & Hbeta & Hlenb & Hsel).
  { apply Forall_lookup. intros i k Hk. rewrite Hrows. by apply (Hrange i k). }
  exists beta. split; [done|]. split; [by rewrite Hlenb|].
  intros i s Hs. destruct (Hlook i s Hs) as (k & Hk & Hu).
  assert (is_Some (beta_subject !! k)) as [row Hrow].
  { apply lookup_lt_is_Some. rewrite Hrows. by apply (Hrange i k). }
  exists k, row. split; [done|]. split; [done|].
  by rewrite (Hsel i k Hk).
Qed.

(** X16: flat inputs make a dictionary the data block accepts.  For a model
    built from a flat identifier sequence over a design matrix whose rows
    all have one cell per column, and a flat signal that passes the length
    check, [measure], [X] and [subj_idx] have the sizes the Stan program
    declares from [n] and [m]. *)
Theorem flat_inputs_fit_data_block X (ids : list Z) mdl (signal : list V) chains :
  HierarchicalStanModel_init X (np.array ids) = Ok mdl →
  pd.rectangular (pd.shape1 X) (pd.values X) →
  HierarchicalModel_sample (stan_base mdl) (np.array signal) chains = Ok tt →
  stan_data_block (stan_data mdl (np.array signal)).
Proof.
  intros [Hinit _]%stan_init_Ok Hrect Hcheck.
  destruct (flat_index_shape X ids _ Hinit) as (Hshape & Hlen).
  apply init_Ok in Hinit as [Hmdl _].
  assert (HX : attr_X (stan_base mdl) = X) by by rewrite Hmdl.
  unfold HierarchicalModel_sample, np.len, np.squeeze, np.array in Hcheck.
  simpl in Hcheck. rewrite HX in Hcheck.
  destruct (decide (length signal = 1)) as [Heq|Hne].
  { rewrite Heq in Hcheck. discriminate Hcheck. }
  rewrite filter_cons_True in Hcheck by done. simpl in Hcheck.
  destruct (decide (length signal ≠ pd.shape0 X)) as [|Hn%dec_stable];
    [discriminate|].
  unfold stan_data_block, stan_data. simpl.
  rewrite length_fmap, HX, Hshape, Hlen, Hn. done.
Qed.

(** X17: the length check looks at the squeezed signal, the engine gets
    the signal as it came.  A column vector of the right length passes the
    check, and the dictionary then carries a two-dimensional [measure],
    which is not the [real measure[n]] the Stan program declares. *)
Theorem column_signal_passes_unsqueezed (mdl : HierarchicalStanModel C V)
    (signal : list V) chains :
  length signal = pd.shape0 (X (stan_base mdl)) → length signal ≠ 1 →
  HierarchicalModel_sample (stan_base mdl)
    (np.NDArray [length signal; 1] signal) chains = Ok tt
  ∧ data_measure (stan_data mdl (np.NDArray [length signal; 1] signal))
    = np.NDArray [length signal; 1] signal
  ∧ ¬ stan_data_block (stan_data mdl (np.NDArray [length signal; 1] signal)).
Proof.
  intros Hlen Hne. split; [|split; [done|]].
  - assert (Hf : filter (λ d, d ≠ 1) [length signal; 1] = [length signal]).
    { rewrite filter_cons_True by done.
      by rewrite filter_cons_False by (intros H; by apply H). }
    unfold HierarchicalModel_sample, np.len, np.squeeze.
    cbn [np.shape np.data]. rewrite Hf.
    destruct (decide _) as [Hbad|_]; [by destruct Hbad|done].
  - intros (Hshape & _). simpl in Hshape. discriminate Hshape.
Qed.

End stan_program_facts.

(** ** The constructor of the Stan adapter and its cache file *)

Section cache.

Context {C V StanModelObject : Type}.
Implicit Types (X : pd.DataFrame C V) (subject_ids : np.ndarray Z).
Implicit Types (pystan_StanModel : string → result StanModelObject).
Implicit Types (file : option StanModelObject).

(** X18: what a successful construction leaves in [stanmodel.pkl] is the
    model it runs with, and the next construction that does not ask for a
    recompile takes exactly that model from the file, compiles nothing and
    leaves the file alone, whatever data it is given. *)
Theorem cache_round_trip pystan_StanModel X subject_ids recompile file
    obj model :
  outcome (HierarchicalStanModel_init_cached pystan_StanModel X subject_ids
             recompile file) = Ok (obj, model) →
  stanmodel_pkl (HierarchicalStanModel_init_cached pystan_StanModel X
                   subject_ids recompile file) = Some model
  ∧ ∀ X' subject_ids' obj',
      HierarchicalStanModel_init X' subject_ids' = Ok obj' →
      HierarchicalStanModel_init_cached pystan_StanModel X' subject_ids'
        false (Some model)
      = {| outcome := Ok (obj', model); stanmodel_pkl := Some model;
           compiled := [] |}.
Proof.
  intros Hrun. split.
  - unfold HierarchicalStanModel_init_cached in *.
    destruct (HierarchicalModel_init X subject_ids); [|done].
    destruct file as [cached|], recompile; simpl in *;
      try (destruct (pystan_StanModel stan_code); simpl in *);
      by simplify_eq.
  - intros X' subject_ids' obj' Hinit.
    unfold HierarchicalStanModel_init_cached, HierarchicalStanModel_init in *.
    destruct (HierarchicalModel_init X' subject_ids'); by simplify_eq.
Qed.

(** X19: the constructor validates before it touches the cache, and
    compiles only when it has to.  The program compiled, if any, is
    [stan_code], and that happens exactly when the inputs are accepted and
    the file is missing or a recompile is asked for; the outcome on bad
    inputs is the error of the inherited constructor; a run that raises
    leaves the file as it was; a run that succeeds returns the object the
    inherited constructor builds, with no results yet. *)
Theorem constructor_validates_then_compiles pystan_StanModel X subject_ids
    recompile file :
  let run := HierarchicalStanModel_init_cached pystan_StanModel X subject_ids
               recompile file in
  (compiled run
   = if bool_decide (is_Some (raised (HierarchicalModel_init X subject_ids)))
     then []
     else if bool_decide (file = None ∨ recompile = true) then [stan_code]
          else [])
  ∧ (∀ e, HierarchicalModel_init X subject_ids = Raise e →
       outcome run = Raise e)
  ∧ (∀ e, outcome run = Raise e → stanmodel_pkl run = file)
  ∧ (∀ obj model, outcome run = Ok (obj, model) →
       HierarchicalStanModel_init X subject_ids = Ok obj
       ∧ stan_results obj = None).
Proof.
  unfold HierarchicalStanModel_init_cached, HierarchicalStanModel_init.
  destruct (HierarchicalModel_init X subject_ids) as [base|e0]; simpl.
  - destruct file as [cached|], recompile; simpl.
    + destruct (pystan_StanModel stan_code); simpl;
        repeat split; intros; by simplify_eq.
    + repeat split; intros; by simplify_eq.
    + destruct (pystan_StanModel stan_code); simpl;
        repeat split; intros; by simplify_eq.
    + destruct (pystan_StanModel stan_code); simpl;
        repeat split; intros; by simplify_eq.
  - repeat split; intros; by simplify_eq.
Qed.

End cache.

(** ** The further properties at concrete inputs *)

Section more_witnesses.

Import example.

Lemma subj_idx_is_rank_witness :
  HierarchicalModel_init X5 ids5 = Ok (_get_subj_idx X5 ids5)
  ∧ np.data ids5 !! 0 = Some 5%Z
  ∧ np.data (subj_idx (_get_subj_idx X5 ids5)) !! 0 = Some 2
  ∧ 2 = size (filter (λ u, (u < 5)%Z) (list_to_set (np.data ids5) : gset Z)).
Proof.
  do 3 (split; [reflexivity|]).
  apply (subj_idx_is_rank X5 ids5 (_get_subj_idx X5 ids5) 0 5%Z 2);
    reflexivity.
Defined.

Lemma subj_idx_groups_and_orders_witness :
  HierarchicalModel_init X5 ids5 = Ok (_get_subj_idx X5 ids5)
  ∧ np.data ids5 !! 1 = Some 1%Z
  ∧ np.data ids5 !! 3 = Some 3%Z
  ∧ np.data (subj_idx (_get_subj_idx X5 ids5)) !! 1 = Some 0
  ∧ np.data (subj_idx (_get_subj_idx X5 ids5)) !! 3 = Some 1
  ∧ (0 = 1 ↔ 1%Z = 3%Z) ∧ (0 < 1 ↔ (1 < 3)%Z).
Proof.
  do 5 (split; [reflexivity|]).
  apply (subj_idx_groups_and_orders X5 ids5 (_get_subj_idx X5 ids5) 1 3);
    reflexivity.
Defined.

Lemma every_rank_is_used_witness :
  HierarchicalModel_init X5 ids5 = Ok (_get_subj_idx X5 ids5)
  ∧ (∀ k, k < 3 → ∃ i, np.data (subj_idx (_get_subj_idx X5 ids5)) !! i = Some k)
  ∧ 3 ≤ 5
  ∧ (∀ ids : list Z, ids5 = np.array ids → 3 ≤ 5).
Proof.
  split; [reflexivity|].
  apply (every_rank_is_used X5 ids5 (_get_subj_idx X5 ids5)). reflexivity.
Defined.

Lemma unique_ids_depend_on_the_set_witness :
  HierarchicalModel_init X5 ids5 = Ok (_get_subj_idx X5 ids5)
  ∧ HierarchicalModel_init X5 (np.array [1; 3; 5; 3; 1]%Z)
    = Ok (_get_subj_idx X5 (np.array [1; 3; 5; 3; 1]%Z))
  ∧ (list_to_set (np.data ids5) : gset Z)
    = list_to_set [1; 3; 5; 3; 1]%Z
  ∧ unique_subject_ids (_get_subj_idx X5 ids5)
    = unique_subject_ids (_get_subj_idx X5 (np.array [1; 3; 5; 3; 1]%Z))
  ∧ n_subjects (_get_subj_idx X5 ids5)
    = n_subjects (_get_subj_idx X5 (np.array [1; 3; 5; 3; 1]%Z)).
Proof.
  do 3 (split; [reflexivity|]).
  apply (unique_ids_depend_on_the_set X5 X5 ids5 (np.array [1; 3; 5; 3; 1]%Z));
    reflexivity.
Defined.

Lemma index_is_aligned_with_rows_witness :
  HierarchicalModel_init X5 (np.array [5; 1; 5; 3; 1]%Z)
    = Ok (_get_subj_idx X5 ids5)
  ∧ subject_ids (_get_subj_idx X5 ids5) = np.array [5; 1; 5; 3; 1]%Z
  ∧ np.shape (subj_idx (_get_subj_idx X5 ids5)) = [pd.shape0 X5]
  ∧ length (np.data (subj_idx (_get_subj_idx X5 ids5))) = pd.shape0 X5.
Proof.
  split; [reflexivity|].
  apply (index_is_aligned_with_rows X5 [5; 1; 5; 3; 1]%Z). reflexivity.
Defined.

Lemma constructor_outcomes_witness :
  np.shape0 (np.squeeze ids5) = Ok (pd.shape0 X5)
  ∧ (∃ mdl, HierarchicalModel_init X5 ids5 = Ok mdl)
  ∧ Forall (λ d, d = 1) (np.shape (np.NDArray [1; 1] [7%Z]))
  ∧ HierarchicalModel_init X5 (np.NDArray [1; 1] [7%Z]) = Raise IndexError.
Proof.
  split; [reflexivity|].
  destruct (constructor_outcomes X5 ids5) as (_ & _ & Hok & _).
  split; [apply Hok; reflexivity|].
  destruct (constructor_outcomes X5 (np.NDArray [1; 1] [7%Z]))
    as (Hindex & _).
  assert (Hall : Forall (λ d, d = 1) (np.shape (np.NDArray [1; 1] [7%Z])))
    by (repeat constructor).
  split; [exact Hall|apply Hindex, Hall].
Defined.

Lemma failed_sample_keeps_results_witness :
  HierarchicalStanModel_sample engine_fails signal3 1 1000 tt sampled5
    = (Raise SignalShapeError, sampled5)
  ∧ self sampled5 = self sampled5
  ∧ (∀ melt, (get_subject_traces melt sampled5).1
             = (get_subject_traces melt sampled5).1)
  ∧ (∀ melt, (get_group_traces melt sampled5).1
             = (get_group_traces melt sampled5).1)
  ∧ (engine_log sampled5 = engine_log sampled5
     ∨ ∃ call, engine_log sampled5 = engine_log sampled5 ++ [call]).
Proof.
  split; [reflexivity|].
  apply (failed_sample_keeps_results engine_fails signal3 1 1000 tt sampled5
           SignalShapeError sampled5).
  reflexivity.
Defined.

Lemma group_traces_layout_witness :
  stan_results (self sampled5) = Some fit5
  ∧ np.shape (beta_group fit5) = [2; pd.shape1 (X (stan_base (self sampled5)))]
  ∧ np.wf (beta_group fit5)
  ∧ ∃ wide,
      get_group_traces false sampled5 = (Ok (Wide wide), sampled5)
      ∧ pd.columns wide = ["a"%string; "b"%string]
      ∧ length (pd.values wide) = 2.
Proof.
  do 3 (split; [reflexivity|]).
  destruct (group_traces_layout sampled5 fit5 2 eq_refl eq_refl eq_refl)
    as (wide & Hget & Hcols & Hrows & _).
  exists wide. split; [exact Hget|]. split; [exact Hcols|exact Hrows].
Defined.

Lemma subject_traces_long_layout_witness :
  stan_results (self sampled5) = Some fit5
  ∧ np.wf (beta_subject fit5)
  ∧ ∃ wide long,
      (get_subject_traces false sampled5).1 = Ok (Wide wide)
      ∧ (get_subject_traces true sampled5).1 = Ok (Long long)
      ∧ length long = length (pd.columns wide) * length (pd.values wide).
Proof.
  do 2 (split; [reflexivity|]).
  destruct (subject_traces_long_layout sampled5 fit5 _ eq_refl eq_refl eq_refl)
    as (long & Hlong & Hlen & _).
  eexists _, long. split; [reflexivity|]. split; [exact Hlong|exact Hlen].
Defined.

Lemma subject_traces_need_matching_size_witness :
  stan_results (self sampled5) = Some fit5
  ∧ np.shape (beta_subject fit5) = [2; 3; 2]
  ∧ np.prod [3; 2]
    = length (unique_subject_ids (stan_base (self sampled5)))
      * pd.shape1 (X (stan_base (self sampled5)))
  ∧ ∃ table, (get_subject_traces true sampled5).1 = Ok table.
Proof.
  do 3 (split; [reflexivity|]).
  destruct (subject_traces_need_matching_size sampled5 fit5 eq_refl)
    as (_ & _ & Hsize).
  destruct (Hsize 2 3 [2] eq_refl) as (Hok & _).
  apply (Hok eq_refl true).
Defined.


Lemma stan_beta_selects_own_subject_witness :
  HierarchicalStanModel_init X5 ids5 = Ok (self new5)
  ∧ length [[10; 11]; [20; 21]; [30; 31]]%Z
    = data_j (stan_data (self new5) signal5)
  ∧ ∃ beta,
      stan_beta [[10; 11]; [20; 21]; [30; 31]]%Z
        (np.data (data_subj_idx (stan_data (self new5) signal5))) = Ok beta
      ∧ length beta = 5.
Proof.
  do 2 (split; [reflexivity|]).
  destruct (stan_beta_selects_own_subject X5 ids5 (self new5) signal5
              [[10; 11]; [20; 21]; [30; 31]]%Z eq_refl eq_refl)
    as (beta & Hbeta & Hlen & _).
  exists beta. split; [exact Hbeta|exact Hlen].
Defined.

Lemma flat_inputs_fit_data_block_witness :
  HierarchicalStanModel_init X5 (np.array [5; 1; 5; 3; 1]%Z) = Ok (self new5)
  ∧ pd.rectangular (pd.shape1 X5) (pd.values X5)
  ∧ HierarchicalModel_sample (stan_base (self new5))
      (np.array [10; 20; 30; 40; 50]%Z) 1 = Ok tt
  ∧ stan_data_block
      (stan_data (self new5) (np.array [10; 20; 30; 40; 50]%Z)).
Proof.
  assert (Hrect : pd.rectangular (pd.shape1 X5) (pd.values X5))
    by (repeat constructor).
  split; [reflexivity|]. split; [exact Hrect|]. split; [reflexivity|].
  apply (flat_inputs_fit_data_block X5 [5; 1; 5; 3; 1]%Z (self new5)
           [10; 20; 30; 40; 50]%Z 1 eq_refl Hrect eq_refl).
Defined.

Lemma column_signal_passes_unsqueezed_witness :
  length [10; 20; 30; 40; 50]%Z = pd.shape0 (X (stan_base (self new5)))
  ∧ length [10; 20; 30; 40; 50]%Z ≠ 1
  ∧ HierarchicalModel_sample (stan_base (self new5))
      (np.NDArray [5; 1] [10; 20; 30; 40; 50]%Z) 1 = Ok tt
  ∧ ¬ stan_data_block
        (stan_data (self new5) (np.NDArray [5; 1] [10; 20; 30; 40; 50]%Z)).
Proof.
  assert (Hne : length [10; 20; 30; 40; 50]%Z ≠ 1) by (simpl; lia).
  split; [reflexivity|]. split; [exact Hne|].
  destruct (column_signal_passes_unsqueezed (self new5)
              [10; 20; 30; 40; 50]%Z 1 eq_refl Hne) as (Hcheck & _ & Hblock).
  split; [exact Hcheck|exact Hblock].
Defined.

Lemma cache_round_trip_witness :
  outcome (HierarchicalStanModel_init_cached (λ code, Ok (String.length code))
             X5 ids5 false None)
    = Ok (self new5, String.length stan_code)
  ∧ stanmodel_pkl
      (HierarchicalStanModel_init_cached (λ code, Ok (String.length code))
         X5 ids5 false None)
    = Some (String.length stan_code)
  ∧ compiled
      (HierarchicalStanModel_init_cached (λ code, Ok (String.length code))
         X5 ids5 false (Some (String.length stan_code)))
    = [].
Proof.
  split; [reflexivity|].
  destruct (cache_round_trip (λ code, Ok (String.length code)) X5 ids5 false
              None (self new5) (String.length stan_code) eq_refl)
    as (Hfile & Hnext).
  split; [exact Hfile|].
  by rewrite (Hnext X5 ids5 (self new5) eq_refl).
Defined.

Lemma constructor_validates_then_compiles_witness :
  HierarchicalModel_init X2 (np.array [7%Z]) = Raise IndexError
  ∧ outcome (HierarchicalStanModel_init_cached
               (λ code, Ok (String.length code)) X2 (np.array [7%Z]) true None)
    = Raise IndexError
  ∧ stanmodel_pkl (HierarchicalStanModel_init_cached
                     (λ code, Ok (String.length code)) X2 (np.array [7%Z])
                     true None)
    = None.
Proof.
  split; [reflexivity|].
  destruct (constructor_validates_then_compiles
              (λ code, Ok (String.length code)) X2 (np.array [7%Z]) true None)
    as (_ & Hbad & Hfile & _).
  split; [apply Hbad; reflexivity|].
  apply (Hfile IndexError). apply Hbad. reflexivity.
Defined.

End more_witnesses.
